(** * docker_utils: the registry credential model and auth protocol

    A shallow embedding of [registry.go] (package docker of
    bborbe/docker_utils) and of the parts of the Go runtime libraries it
    calls, followed by the properties of the specification proved over it.

    Conventions of the embedding:
    - a Go [string] is a sequence of bytes: Rocq's [string] (a list of
      [ascii], one per byte);
    - a Go [error] is [option error], [None] being [nil]; a function with
      results [(T, error)] returns a pair;
    - a method with a pointer receiver [r *Registry] that writes to [*r]
      returns the new value of [*r] beside its result;
    - the file system, the HTTP transport and the JSON decoder are the
      environment: they are Variables of the Section that models the
      package;
    - [glog] calls only write to the log and are left out. *)

From Stdlib Require Import ZArith Ascii String List Lia DecimalString.
From stdpp Require Import base option list gmap strings.

Local Open Scope Z_scope.

(** ** Errors: github.com/pkg/errors and library errors *)

Inductive error : Type :=
| errors_New (msg : string)
| errors_Wrap (cause : error) (msg : string)
| CorruptInputError (offset : Z)
| lib_error (msg : string).

(** [err.Error()]: a wrapped error prints its message, a colon and its cause. *)
Fixpoint Error (e : error) : string :=
  match e with
  | errors_New msg => msg
  | errors_Wrap cause msg => msg +:+ ": " +:+ Error cause
  | CorruptInputError offset =>
      "illegal base64 data at input byte "
        +:+ NilZero.string_of_int (Z.to_int offset)
  | lib_error msg => msg
  end.

(** The [%d] verb of [fmt]. *)
Definition fmt_d (n : Z) : string := NilZero.string_of_int (Z.to_int n).

(** ** Package strings *)

Module strings.

(** [s] without its prefix [p], when it has that prefix
    (strings.HasPrefix and the slice [s[len(p):]]). *)
Fixpoint strip_prefix (p s : string) : option string :=
  match p, s with
  | EmptyString, _ => Some s
  | String a p', String b s' =>
      if Ascii.eqb a b then strip_prefix p' s' else None
  | String _ _, EmptyString => None
  end.

(** [strings.Index(s, sep)] together with the two slices the callers take
    at that index: [Some (s[:m], s[m+len(sep):])] for the first index [m]
    at which [sep] occurs in [s], [None] when Index returns -1. *)
Fixpoint cut_first (sep s : string) : option (string * string) :=
  match strip_prefix sep s with
  | Some rest => Some (EmptyString, rest)
  | None =>
      match s with
      | EmptyString => None
      | String c s' =>
          match cut_first sep s' with
          | Some (before, after) => Some (String c before, after)
          | None => None
          end
      end
  end.

(** The loop of [genSplit]: at most [n] cuts, the last element being the
    unsplit remainder. *)
Fixpoint genSplit_loop (s sep : string) (n : nat) : list string :=
  match n with
  | O => [s]
  | S n' =>
      match cut_first sep s with
      | None => [s]
      | Some (before, after) => before :: genSplit_loop after sep n'
      end
  end.

(** [strings.SplitN(s, sep, n)] for a separator that is not empty (this
    package calls it with the separator [:] only): no element for
    [n = 0], every element for [n < 0], and at most [n] elements
    otherwise, [n] being capped at [len(s) + 1]. *)
Definition SplitN (s sep : string) (n : Z) : list string :=
  if n =? 0 then []
  else
    let cap := S (String.length s) in
    let n' := if n <? 0 then cap else Nat.min (Z.to_nat n) cap in
    genSplit_loop s sep (Nat.pred n').

(** The UTF-8 encodings of the code points for which [unicode.IsSpace]
    holds: U+0009..U+000D, U+0020, U+0085, U+00A0, U+1680,
    U+2000..U+200A, U+2028, U+2029, U+202F, U+205F and U+3000. *)
Definition space_encodings : list (list ascii) :=
  [ ["009"]; ["010"]; ["011"]; ["012"]; ["013"]; ["032"];
    ["194"; "133"]; ["194"; "160"];
    ["225"; "154"; "128"];
    ["226"; "128"; "128"]; ["226"; "128"; "129"]; ["226"; "128"; "130"];
    ["226"; "128"; "131"]; ["226"; "128"; "132"]; ["226"; "128"; "133"];
    ["226"; "128"; "134"]; ["226"; "128"; "135"]; ["226"; "128"; "136"];
    ["226"; "128"; "137"]; ["226"; "128"; "138"];
    ["226"; "128"; "168"]; ["226"; "128"; "169"]; ["226"; "128"; "175"];
    ["226"; "129"; "159"];
    ["227"; "128"; "128"] ]%char.

(** [l] without its prefix [p], on byte lists. *)
Fixpoint drop_prefix (p l : list ascii) : option (list ascii) :=
  match p, l with
  | [], _ => Some l
  | a :: p', b :: l' => if Ascii.eqb a b then drop_prefix p' l' else None
  | _ :: _, [] => None
  end.

(** The bytes after the first rune of [l] when [l] starts with one of the
    encodings [encs]. *)
Fixpoint drop_one (encs : list (list ascii)) (l : list ascii)
  : option (list ascii) :=
  match encs with
  | [] => None
  | e :: encs' =>
      match drop_prefix e l with
      | Some rest => Some rest
      | None => drop_one encs' l
      end
  end.

(** Drop leading runes as long as they are among [encs]; each round drops
    at least one byte, so [length l] rounds are enough. *)
Fixpoint drop_while (encs : list (list ascii)) (fuel : nat) (l : list ascii)
  : list ascii :=
  match fuel with
  | O => l
  | S fuel' =>
      match drop_one encs l with
      | Some rest => drop_while encs fuel' rest
      | None => l
      end
  end.

(** [strings.TrimLeftFunc(s, unicode.IsSpace)] on bytes. A string starts
    with a white-space rune exactly when it starts with the UTF-8
    encoding of one: the decoder accepts the shortest encoding only, and
    an invalid byte decodes to U+FFFD, which is no white space. *)
Definition trim_left (l : list ascii) : list ascii :=
  drop_while space_encodings (length l) l.

(** [strings.TrimRightFunc(s, unicode.IsSpace)] on bytes: the same from
    the end (utf8.DecodeLastRuneInString finds a white-space rune exactly
    when the bytes end with its encoding). *)
Definition trim_right (l : list ascii) : list ascii :=
  rev (drop_while (map (@rev ascii) space_encodings) (length l) (rev l)).

(** [strings.TrimSpace(s)]: leading white space is removed first, then
    trailing white space (the ASCII fast path of the library computes the
    same slice). *)
Definition TrimSpace (s : string) : string :=
  string_of_list_ascii (trim_right (trim_left (list_ascii_of_string s))).

End strings.

(** ** Package encoding/base64: [base64.StdEncoding] *)

Module base64.

Definition byte_to_Z (c : ascii) : Z := Z.of_N (N_of_ascii c).
Definition Z_to_byte (v : Z) : ascii := ascii_of_N (Z.to_N (Z.land v 255)).

(** The alphabet of the standard encoding; the padding character is [=]. *)
Definition encodeStd : list ascii :=
  list_ascii_of_string
    "ABCDEFGHIJKLMNOPQRSTUVWXYZabcdefghijklmnopqrstuvwxyz0123456789+/".

Definition padChar : ascii := "="%char.

(** [enc.encode[v]] for a 6-bit value [v]. *)
Definition encode_sextet (v : Z) : ascii :=
  nth (Z.to_nat (Z.land v 63)) encodeStd padChar.

Fixpoint index_of (c : ascii) (l : list ascii) (i : Z) : Z :=
  match l with
  | [] => 255
  | a :: l' => if Ascii.eqb a c then i else index_of c l' (i + 1)
  end.

(** [enc.decodeMap[c]]: the 6-bit value of [c], 0xff for a byte outside
    the alphabet. *)
Definition decodeMap (c : ascii) : Z := index_of c encodeStd 0.

(** [Encoding.Encode]: three bytes give four characters; a remainder of
    one or two bytes is padded. *)
Fixpoint Encode (src : list ascii) : list ascii :=
  match src with
  | [] => []
  | [b0] =>
      let val := Z.shiftl (byte_to_Z b0) 16 in
      [encode_sextet (Z.shiftr val 18); encode_sextet (Z.shiftr val 12);
       padChar; padChar]
  | [b0; b1] =>
      let val := Z.lor (Z.shiftl (byte_to_Z b0) 16)
                       (Z.shiftl (byte_to_Z b1) 8) in
      [encode_sextet (Z.shiftr val 18); encode_sextet (Z.shiftr val 12);
       encode_sextet (Z.shiftr val 6); padChar]
  | b0 :: b1 :: b2 :: src' =>
      let val := Z.lor (Z.lor (Z.shiftl (byte_to_Z b0) 16)
                              (Z.shiftl (byte_to_Z b1) 8))
                       (byte_to_Z b2) in
      encode_sextet (Z.shiftr val 18) :: encode_sextet (Z.shiftr val 12)
        :: encode_sextet (Z.shiftr val 6) :: encode_sextet val
        :: Encode src'
  end.

Definition EncodeToString (src : string) : string :=
  string_of_list_ascii (Encode (list_ascii_of_string src)).

Definition is_newline (c : ascii) : bool :=
  Ascii.eqb c "010"%char || Ascii.eqb c "013"%char.

(** The loops of [decodeQuantum] that skip over newlines: the input left
    and the index reached. *)
Fixpoint skip_newlines (src : list ascii) (si : Z) : list ascii * Z :=
  match src with
  | c :: src' => if is_newline c then skip_newlines src' (si + 1) else (src, si)
  | [] => (src, si)
  end.

(** The end of [decodeQuantum]: [dlen] 6-bit values in [dbuf] (the missing
    ones zero) give [dlen - 1] bytes. The standard encoding is not strict:
    the bits left over are not checked. *)
Definition quantum_bytes (dbuf : list Z) (dlen : Z) : list ascii :=
  let val := Z.lor (Z.lor (Z.lor (Z.shiftl (nth 0 dbuf 0) 18)
                                 (Z.shiftl (nth 1 dbuf 0) 12))
                          (Z.shiftl (nth 2 dbuf 0) 6))
                   (nth 3 dbuf 0) in
  firstn (Z.to_nat (dlen - 1))
    [Z_to_byte (Z.shiftr val 16); Z_to_byte (Z.shiftr val 8); Z_to_byte val].

(** [decodeQuantum] once it has read a padding character at index
    [si - 1] with [j] values in [dbuf]; [src] is the input after it. *)
Definition decode_padding (src : list ascii) (si : Z) (j : Z) (dbuf : list Z)
  : list ascii * option error :=
  if j <? 2 then ([], Some (CorruptInputError (si - 1)))
  else
    let after_second :=
      if j =? 2 then
        let '(src2, si2) := skip_newlines src si in
        match src2 with
        | [] => inl (CorruptInputError si2)
        | c :: src3 =>
            if Ascii.eqb c padChar then inr (src3, si2 + 1)
            else inl (CorruptInputError (si2 - 1))
        end
      else inr (src, si) in
    match after_second with
    | inl err => ([], Some err)
    | inr (src2, si2) =>
        let '(src3, si3) := skip_newlines src2 si2 in
        let err := match src3 with
                   | [] => None
                   | _ :: _ => Some (CorruptInputError si3)
                   end in
        (quantum_bytes dbuf j, err)
    end.

(** [Encoding.Decode]: the calls of [decodeQuantum] in sequence. [si] is
    the index of the next byte, [j] the number of values read into [dbuf]
    for the current quantum. The result is the bytes decoded so far and
    the error, as [n] and [err] in the library. *)
Fixpoint Decode (src : list ascii) (si : Z) (j : Z) (dbuf : list Z)
  : list ascii * option error :=
  match src with
  | [] =>
      if j =? 0 then ([], None)
      else ([], Some (CorruptInputError (si - j)))
  | c :: src' =>
      let si := si + 1 in
      let out := decodeMap c in
      if negb (out =? 255) then
        if j =? 3 then
          let '(rest, err) := Decode src' si 0 [] in
          (quantum_bytes (dbuf ++ [out]) 4 ++ rest, err)
        else Decode src' si (j + 1) (dbuf ++ [out])
      else if is_newline c then Decode src' si j dbuf
      else if negb (Ascii.eqb c padChar) then
        ([], Some (CorruptInputError (si - 1)))
      else decode_padding src' si j dbuf
  end.

Definition DecodeString (s : string) : string * option error :=
  let '(bytes, err) := Decode (list_ascii_of_string s) 0 0 [] in
  (string_of_list_ascii bytes, err).

End base64.

(** ** Packages net/textproto and net/http *)

Module http.

Definition is_upper (c : ascii) : bool :=
  (N_of_ascii "A" <=? N_of_ascii c)%N && (N_of_ascii c <=? N_of_ascii "Z")%N.

Definition is_lower (c : ascii) : bool :=
  (N_of_ascii "a" <=? N_of_ascii c)%N && (N_of_ascii c <=? N_of_ascii "z")%N.

Definition is_digit (c : ascii) : bool :=
  (N_of_ascii "0" <=? N_of_ascii c)%N && (N_of_ascii c <=? N_of_ascii "9")%N.

(** [validHeaderFieldByte]: the token characters of RFC 7230. *)
Definition validHeaderFieldByte (c : ascii) : bool :=
  is_upper c || is_lower c || is_digit c
  || existsb (Ascii.eqb c)
       ["!"; "#"; "$"; "%"; "&"; "'"; "*"; "+"; "-"; "."; "^"; "_"; "`";
        "|"; "~"]%char.

Definition to_upper (c : ascii) : ascii :=
  if is_lower c then ascii_of_N (N_of_ascii c - 32) else c.

Definition to_lower (c : ascii) : ascii :=
  if is_upper c then ascii_of_N (N_of_ascii c + 32) else c.

(** The second loop of [canonicalMIMEHeaderKey]: upper case for the first
    letter and after each dash, lower case elsewhere. *)
Fixpoint canonical_loop (upper : bool) (s : string) : string :=
  match s with
  | EmptyString => EmptyString
  | String c s' =>
      let c' := if upper then to_upper c else to_lower c in
      String c' (canonical_loop (Ascii.eqb c' "-") s')
  end.

(** [textproto.CanonicalMIMEHeaderKey]: a key with a byte that is no token
    character is returned unchanged. *)
Definition CanonicalMIMEHeaderKey (s : string) : string :=
  if forallb validHeaderFieldByte (list_ascii_of_string s)
  then canonical_loop true s else s.

(** [http.Header] is [map[string][]string]. *)
Abbreviation Header := (gmap string (list string)).

(** [h.Add(key, value)] appends to the values of the canonical key. *)
Definition Header_Add (h : Header) (key value : string) : Header :=
  let key := CanonicalMIMEHeaderKey key in
  <[key := default [] (h !! key) ++ [value]]> h.

(** [h.Set(key, value)] replaces the values of the canonical key. *)
Definition Header_Set (h : Header) (key value : string) : Header :=
  <[CanonicalMIMEHeaderKey key := [value]]> h.

(** [http.Request], with the fields this package uses; the body is the
    content of its reader. *)
Record Request : Type := mkRequest {
  Method : string;
  URL : string;
  Header_of : Header;
  Body : string
}.

(** [http.Response]: [StatusCode] is a Go [int]; the package only divides
    it by 100, which cannot overflow. *)
Record Response : Type := mkResponse {
  StatusCode : Z;
  resp_Body : string
}.

(** [req.Header.Add(key, value)] *)
Definition Request_Header_Add (req : Request) (key value : string) : Request :=
  mkRequest (Method req) (URL req) (Header_Add (Header_of req) key value)
            (Body req).

(** [basicAuth] of net/http/client.go *)
Definition basicAuth (username password : string) : string :=
  base64.EncodeToString (username +:+ ":" +:+ password).

(** [req.SetBasicAuth(username, password)] *)
Definition SetBasicAuth (req : Request) (username password : string) : Request :=
  mkRequest (Method req) (URL req)
            (Header_Set (Header_of req) "Authorization"
                        ("Basic " +:+ basicAuth username password))
            (Body req).

End http.

Import http.

(** ** The environment of the package *)

(** The data [CredentialsFromDockerConfig] decodes into:
    [struct { Domain map[string]struct { Auth string } }], the field
    [Domain] being the [auths] object of the file. A nil map is the empty
    map: both have no key. *)
Record auth_entry : Type := mk_auth_entry { Auth : string }.
Record config_data : Type := mk_config_data { Domain : gmap string auth_entry }.

(** The data [GetToken] decodes into: [struct { Token RegistryToken }]. *)
Record login_data : Type := mk_login_data { login_Token : string }.

(** An [io.Reader] is modelled by the bytes it delivers. *)
Definition io_Reader := string.

(** What the package calls outside itself and the Go libraries modelled
    above: the file system, the URL parser, the JSON decoder and the HTTP
    transport. A result [(T, error)] of these is a sum: the error, or the
    value. *)
Class Runtime : Type := {
  (** [ioutil.ReadFile(path)] *)
  ioutil_ReadFile : string -> error + string;
  (** [util.NormalizePath(path)] of github.com/bborbe/io *)
  util_NormalizePath : string -> error + string;
  (** [os.Open(path)] *)
  os_Open : string -> error + io_Reader;
  (** [json.NewDecoder(reader).Decode(&data)] for the two shapes of data *)
  json_Decode_config : io_Reader -> error + config_data;
  json_Decode_login : io_Reader -> error + login_data;
  (** the error of [url.Parse], by which [http.NewRequest] fails *)
  url_Parse_error : string -> option error;
  (** [http.DefaultClient.Do(req)] *)
  http_Do : Request -> error + Response
}.

(** ** Package docker: registry.go *)

(** The double quote, for the format strings that hold one. *)
Definition dq : string := String "034" EmptyString.

Definition RegistryUsername := string.
Definition RegistryToken := string.
Definition RegistryPassword := string.
Definition RegistryName := string.

Record Registry : Type := mkRegistry {
  Name : RegistryName;
  Token : RegistryToken;
  Username : RegistryUsername;
  Password : RegistryPassword
}.

Definition RegistryUsername_String (r : RegistryUsername) : string := r.

Definition RegistryUsername_Validate (r : RegistryUsername) : option error :=
  if (String.length r =? 0)%nat then Some (errors_New "username empty")
  else None.

Definition RegistryToken_String (r : RegistryToken) : string := r.

Definition RegistryPassword_String (r : RegistryPassword) : string := r.

Definition RegistryPassword_Validate (r : RegistryPassword) : option error :=
  if (String.length r =? 0)%nat then Some (errors_New "password empty")
  else None.

Definition RegistryName_String (r : RegistryName) : string := r.

Definition RegistryName_IsDockerHub (r : RegistryName) : bool :=
  String.eqb "docker.io" (RegistryName_String r).

(** [fmt.Sprintf] with the verb [%s] writes the String() of its argument. *)
Definition RegistryName_Url (r : RegistryName) : string :=
  if RegistryName_IsDockerHub r then "https://hub.docker.com"
  else "https://" +:+ RegistryName_String r.

Definition RegistryName_Validate (r : RegistryName) : option error :=
  if (String.length r =? 0)%nat then Some (errors_New "registry empty")
  else None.

Definition nameToDomain (name : RegistryName) : string :=
  if RegistryName_IsDockerHub name then "https://index.docker.io/v1/"
  else RegistryName_String name.

Definition Registry_Validate (r : Registry) : option error :=
  match RegistryName_Validate (Name r) with
  | Some err => Some err
  | None =>
      match RegistryUsername_Validate (Username r) with
      | Some err => Some err
      | None =>
          match RegistryPassword_Validate (Password r) with
          | Some err => Some err
          | None => None
          end
      end
  end.

(** The body [GetToken] writes:
    [fmt.Sprintf(`{"username": "%s", "password": "%s"}`, r.Username, r.Password)] *)
Definition login_body (username : RegistryUsername) (password : RegistryPassword)
  : string :=
  "{" +:+ dq +:+ "username" +:+ dq +:+ ": " +:+ dq
      +:+ RegistryUsername_String username +:+ dq
      +:+ ", " +:+ dq +:+ "password" +:+ dq +:+ ": " +:+ dq
      +:+ RegistryPassword_String password +:+ dq +:+ "}".

Section Package.

Context {rt : Runtime}.

(** [http.NewRequest(method, url, body)] for a valid method: it fails when
    the URL does not parse, and gives a request with an empty header
    otherwise. *)
Definition http_NewRequest (method url : string) (body : io_Reader)
  : error + Request :=
  match url_Parse_error url with
  | Some err => inl err
  | None => inr (mkRequest method url ∅ body)
  end.

Definition RegistryPasswordFromFile (path : string)
  : RegistryPassword * option error :=
  match ioutil_ReadFile path with
  | inl err => (EmptyString, Some err)
  | inr content => (strings.TrimSpace content, None)
  end.

(** The receiver is a pointer: the first component of the result is the
    Registry after the call, the second the error returned. *)
Definition CredentialsFromDockerConfig (r : Registry) (reader : io_Reader)
  : Registry * option error :=
  match json_Decode_config reader with
  | inl err => (r, Some (errors_Wrap err "decode json failed"))
  | inr data =>
      match Domain data !! nameToDomain (Name r) with
      | None =>
          (r, Some (errors_New ("domain " +:+ RegistryName_String (Name r)
                                  +:+ " not found in docker config")))
      | Some auth =>
          match base64.DecodeString (Auth auth) with
          | (_, Some err) =>
              (r, Some (errors_Wrap err "base64 decode auth failed"))
          | (value, None) =>
              match strings.SplitN value ":" 2 with
              | [part0; part1] =>
                  (mkRegistry (Name r) (Token r) part0 part1, None)
              | _ => (r, Some (errors_New "split auth failed"))
              end
          end
      end
  end.

Definition ReadCredentialsFromDockerConfig (r : Registry)
  : Registry * option error :=
  let dockerConfig := "~/.docker/config.json" in
  match util_NormalizePath dockerConfig with
  | inl err =>
      (r, Some (errors_Wrap err ("normalize path " +:+ dockerConfig
                                   +:+ " failed")))
  | inr path =>
      match os_Open path with
      | inl err =>
          (r, Some (errors_Wrap err ("open file " +:+ path +:+ " failed")))
      | inr file => CredentialsFromDockerConfig r file
      end
  end.

(** The result is [(token, err)] and the requests handed to the HTTP
    client, in order. *)
Definition GetToken (r : Registry)
  : (RegistryToken * option error) * list Request :=
  let b := login_body (Username r) (Password r) in
  match http_NewRequest "POST"
          (RegistryName_Url (Name r) +:+ "/v2/users/login/") b with
  | inl err => ((EmptyString, Some (errors_Wrap err "create request failed")), [])
  | inr req =>
      let req := Request_Header_Add req "Content-Type" "application/json" in
      match http_Do req with
      | inl err =>
          ((EmptyString, Some (errors_Wrap err "request failed")), [req])
      | inr resp =>
          if negb (Z.quot (StatusCode resp) 100 =? 2) then
            ((EmptyString,
              Some (errors_New ("status code " +:+ fmt_d (StatusCode resp)
                                  +:+ " != 2xx"))), [req])
          else
            match json_Decode_login (resp_Body resp) with
            | inl err =>
                ((EmptyString, Some (errors_Wrap err "decode response failed")),
                 [req])
            | inr data => ((login_Token data, None), [req])
            end
      end
  end.

(** [req] is a pointer: the result is the request after the call, the
    error returned, and the requests handed to the HTTP client. *)
Definition SetAuth (r : Registry) (req : Request)
  : (Request * option error) * list Request :=
  if RegistryName_IsDockerHub (Name r) then
    match GetToken r with
    | ((_, Some err), sent) =>
        ((req, Some (errors_Wrap err "get token failed")), sent)
    | ((token, None), sent) =>
        ((Request_Header_Add req "Authorization"
            ("JWT " +:+ RegistryToken_String token), None), sent)
    end
  else if negb (String.eqb (RegistryUsername_String (Username r)) EmptyString)
          && negb (String.eqb (RegistryPassword_String (Password r)) EmptyString)
  then ((SetBasicAuth req (RegistryUsername_String (Username r))
                      (RegistryPassword_String (Password r)), None), [])
  else ((req, None), []).

End Package.

(** ** JSON texts (RFC 8259)

    The reading of a JSON text, by which a request body is judged: not part
    of the package, which only writes such a text. *)

Module json.

#[warnings="-register-all"]
Inductive value : Type :=
| Null
| Bool (b : bool)
| Number (raw : string)
| Str (s : string)
| Array (elements : list value)
| Object (members : list (string * value)).

Definition code (c : ascii) : Z := Z.of_N (N_of_ascii c).

Definition byte_of (v : Z) : ascii := ascii_of_N (Z.to_N v).

Definition is_ws (c : ascii) : bool :=
  existsb (Ascii.eqb c) [" "; "009"; "010"; "013"]%char.

Fixpoint skip_ws (s : string) : string :=
  match s with
  | String c s' => if is_ws c then skip_ws s' else s
  | EmptyString => s
  end.

Definition hex_digit (c : ascii) : option Z :=
  let n := code c in
  if (48 <=? n) && (n <=? 57) then Some (n - 48)
  else if (65 <=? n) && (n <=? 70) then Some (n - 55)
  else if (97 <=? n) && (n <=? 102) then Some (n - 87)
  else None.

Definition hex4 (a b c d : ascii) : option Z :=
  match hex_digit a, hex_digit b, hex_digit c, hex_digit d with
  | Some x, Some y, Some z, Some w => Some (((x * 16 + y) * 16 + z) * 16 + w)
  | _, _, _, _ => None
  end.

(** The UTF-8 encoding of a code point. *)
Definition utf8 (r : Z) : string :=
  let cont v := byte_of (128 + Z.land v 63) in
  if r <? 128 then String (byte_of r) EmptyString
  else if r <? 2048 then
    String (byte_of (192 + Z.shiftr r 6)) (String (cont r) EmptyString)
  else if r <? 65536 then
    String (byte_of (224 + Z.shiftr r 12))
      (String (cont (Z.shiftr r 6)) (String (cont r) EmptyString))
  else
    String (byte_of (240 + Z.shiftr r 18))
      (String (cont (Z.shiftr r 12))
         (String (cont (Z.shiftr r 6)) (String (cont r) EmptyString))).

(** The byte an escape of two characters stands for. *)
Definition simple_escape (e : ascii) : option ascii :=
  if Ascii.eqb e "034" then Some "034"%char
  else if Ascii.eqb e "092" then Some "092"%char
  else if Ascii.eqb e "/" then Some "/"%char
  else if Ascii.eqb e "b" then Some "008"%char
  else if Ascii.eqb e "f" then Some "012"%char
  else if Ascii.eqb e "n" then Some "010"%char
  else if Ascii.eqb e "r" then Some "013"%char
  else if Ascii.eqb e "t" then Some "009"%char
  else None.

Definition is_high_surrogate (u : Z) : bool := (55296 <=? u) && (u <=? 56319).
Definition is_low_surrogate (u : Z) : bool := (56320 <=? u) && (u <=? 57343).

Definition prepend (p : string) (r : option (string * string))
  : option (string * string) :=
  match r with
  | Some (s, rest) => Some (p +:+ s, rest)
  | None => None
  end.

(** The low surrogate that the escape at the start of [s] writes, if any. *)
Definition low_surrogate_escape (s : string) : option Z :=
  match s with
  | String b (String u (String k1 (String k2 (String k3 (String k4 _))))) =>
      if Ascii.eqb b "092" && Ascii.eqb u "u" then
        match hex4 k1 k2 k3 k4 with
        | Some u2 => if is_low_surrogate u2 then Some u2 else None
        | None => None
        end
      else None
  | _ => None
  end.

(** A string after its opening quote: its content and what follows its
    closing quote. A control character must be escaped; a surrogate pair
    is one code point, and a surrogate with no partner is read as U+FFFD. *)
Fixpoint parse_chars (s : string) : option (string * string) :=
  match s with
  | EmptyString => None
  | String c s1 =>
      if Ascii.eqb c "034" then Some (EmptyString, s1)
      else if Ascii.eqb c "092" then
        match s1 with
        | EmptyString => None
        | String e s2 =>
            match simple_escape e with
            | Some b => prepend (String b EmptyString) (parse_chars s2)
            | None =>
                if Ascii.eqb e "u" then
                  match s2 with
                  | String h1 (String h2 (String h3 (String h4 s6))) =>
                      match hex4 h1 h2 h3 h4 with
                      | None => None
                      | Some u1 =>
                          if is_high_surrogate u1 then
                            match low_surrogate_escape s6, s6 with
                            | Some u2,
                              String _ (String _ (String _ (String _
                                (String _ (String _ s12))))) =>
                                prepend
                                  (utf8 (65536 + (u1 - 55296) * 1024
                                         + (u2 - 56320)))
                                  (parse_chars s12)
                            | _, _ => prepend (utf8 65533) (parse_chars s6)
                            end
                          else if is_low_surrogate u1 then
                            prepend (utf8 65533) (parse_chars s6)
                          else prepend (utf8 u1) (parse_chars s6)
                      end
                  | _ => None
                  end
                else None
            end
        end
      else if code c <? 32 then None
      else prepend (String c EmptyString) (parse_chars s1)
  end.

Definition is_digit (c : ascii) : bool := (48 <=? code c) && (code c <=? 57).

(** The digits at the start of [s], and the rest. *)
Fixpoint span_digits (s : string) : string * string :=
  match s with
  | String c s' =>
      if is_digit c then
        let '(ds, rest) := span_digits s' in (String c ds, rest)
      else (EmptyString, s)
  | EmptyString => (EmptyString, s)
  end.

(** A number: a sign, an integer with no leading zero, a fraction and an
    exponent. The result keeps the text of the number. *)
Definition parse_number (s : string) : option (string * string) :=
  let '(sign, s1) :=
    match s with
    | String "-" s' => ("-", s')
    | _ => (EmptyString, s)
    end in
  let '(int, s2) := span_digits s1 in
  match int with
  | EmptyString => None
  | String d ds =>
      if Ascii.eqb d "0" && negb (String.eqb ds EmptyString) then None
      else
        let frac :=
          match s2 with
          | String "." s3 =>
              let '(fs, s4) := span_digits s3 in
              match fs with
              | EmptyString => None
              | _ => Some ("." +:+ fs, s4)
              end
          | _ => Some (EmptyString, s2)
          end in
        match frac with
        | None => None
        | Some (ftext, s5) =>
            let exp :=
              match s5 with
              | String e s6 =>
                  if Ascii.eqb e "e" || Ascii.eqb e "E" then
                    let '(esign, s7) :=
                      match s6 with
                      | String "+" s' => ("+", s')
                      | String "-" s' => ("-", s')
                      | _ => (EmptyString, s6)
                      end in
                    let '(es, s8) := span_digits s7 in
                    match es with
                    | EmptyString => None
                    | _ => Some (String e esign +:+ es, s8)
                    end
                  else Some (EmptyString, s5)
              | EmptyString => Some (EmptyString, s5)
              end in
            match exp with
            | None => None
            | Some (etext, rest) => Some (sign +:+ int +:+ ftext +:+ etext, rest)
            end
        end
  end.

(** A value at the start of [s] (after white space), and what follows it.
    Every call reads a shorter input than the call it comes from, so fuel
    above the length of the text is never used up. *)
Fixpoint parse_value (fuel : nat) (s : string) : option (value * string) :=
  match fuel with
  | O => None
  | S fuel' =>
      match skip_ws s with
      | EmptyString => None
      | String c s1 =>
          if Ascii.eqb c "034" then
            match parse_chars s1 with
            | Some (str, rest) => Some (Str str, rest)
            | None => None
            end
          else if Ascii.eqb c "{" then
            match skip_ws s1 with
            | String "}" rest => Some (Object [], rest)
            | _ =>
                match parse_members fuel' s1 with
                | Some (ms, rest) => Some (Object ms, rest)
                | None => None
                end
            end
          else if Ascii.eqb c "[" then
            match skip_ws s1 with
            | String "]" rest => Some (Array [], rest)
            | _ =>
                match parse_elements fuel' s1 with
                | Some (vs, rest) => Some (Array vs, rest)
                | None => None
                end
            end
          else
            match strings.strip_prefix "true" (String c s1),
                  strings.strip_prefix "false" (String c s1),
                  strings.strip_prefix "null" (String c s1) with
            | Some rest, _, _ => Some (Bool true, rest)
            | _, Some rest, _ => Some (Bool false, rest)
            | _, _, Some rest => Some (Null, rest)
            | None, None, None =>
                match parse_number (String c s1) with
                | Some (raw, rest) => Some (Number raw, rest)
                | None => None
                end
            end
      end
  end

(** The members of an object after its brace, up to the closing brace. *)
with parse_members (fuel : nat) (s : string)
  : option (list (string * value) * string) :=
  match fuel with
  | O => None
  | S fuel' =>
      match skip_ws s with
      | String q s1 =>
          if Ascii.eqb q "034" then
            match parse_chars s1 with
            | None => None
            | Some (key, s2) =>
                match skip_ws s2 with
                | String ":" s3 =>
                    match parse_value fuel' s3 with
                    | None => None
                    | Some (v, s4) =>
                        match skip_ws s4 with
                        | String "," s5 =>
                            match parse_members fuel' s5 with
                            | Some (ms, rest) => Some ((key, v) :: ms, rest)
                            | None => None
                            end
                        | String "}" rest => Some ([(key, v)], rest)
                        | _ => None
                        end
                    end
                | _ => None
                end
            end
          else None
      | EmptyString => None
      end
  end

(** The elements of an array after its bracket, up to the closing bracket. *)
with parse_elements (fuel : nat) (s : string) : option (list value * string) :=
  match fuel with
  | O => None
  | S fuel' =>
      match parse_value fuel' s with
      | None => None
      | Some (v, s1) =>
          match skip_ws s1 with
          | String "," s2 =>
              match parse_elements fuel' s2 with
              | Some (vs, rest) => Some (v :: vs, rest)
              | None => None
              end
          | String "]" rest => Some ([v], rest)
          | _ => None
          end
      end
  end.

(** The value a JSON text writes: one value, with white space around it
    and nothing more. *)
Definition parse (text : string) : option value :=
  match parse_value (2 * String.length text + 2) text with
  | Some (v, rest) =>
      match skip_ws rest with
      | EmptyString => Some v
      | String _ _ => None
      end
  | None => None
  end.

(** The member [name] of an object; of two members of that name, the last
    counts. *)
Definition member (name : string) (v : value) : option value :=
  match v with
  | Object ms =>
      match find (fun m => String.eqb (fst m) name) (rev ms) with
      | Some (_, x) => Some x
      | None => None
      end
  | _ => None
  end.

End json.

(** ** Notions of the specification *)

(** [s] holds the byte [:]. *)
Definition has_colon (s : string) : Prop :=
  exists a b : string, s = a +:+ ":" +:+ b.

(** A sequence of white-space runes: the concatenation of encodings among
    [encs]. *)
Definition runs_of (encs : list (list ascii)) (l : list ascii) : Prop :=
  exists ws : list (list ascii), Forall (fun w => In w encs) ws /\ l = concat ws.

(** The code points for which [unicode.IsSpace] holds. *)
Definition unicode_space_runes : list Z :=
  [9; 10; 11; 12; 13; 32; 133; 160; 5760;
   8192; 8193; 8194; 8195; 8196; 8197; 8198; 8199; 8200; 8201; 8202;
   8232; 8233; 8239; 8287; 12288].

(** [s] is made of white space only. *)
Definition white_space (s : string) : Prop :=
  runs_of strings.space_encodings (list_ascii_of_string s).

(** [s] starts, or ends, with a white-space rune. *)
Definition starts_with_space (s : string) : Prop :=
  exists w rest, In w strings.space_encodings
                 /\ list_ascii_of_string s = w ++ rest.

Definition ends_with_space (s : string) : Prop :=
  exists w front, In w strings.space_encodings
                  /\ list_ascii_of_string s = front ++ w.

(** The request [GetToken] builds for the Registry [r]. *)
Definition login_request (r : Registry) : Request :=
  mkRequest "POST" (RegistryName_Url (Name r) +:+ "/v2/users/login/")
            {[ "Content-Type" := ["application/json"] ]}
            (login_body (Username r) (Password r)).

(** [body] is a JSON object whose members [username] and [password] are the
    strings [username] and [password]. *)
Definition carries_login (body : string) (username password : string) : Prop :=
  exists v : json.value,
    json.parse body = Some v
    /\ json.member "username" v = Some (json.Str username)
    /\ json.member "password" v = Some (json.Str password).

(** A byte that a JSON string holds as it is: printable ASCII other than
    the double quote and the backslash. *)
Definition plain_byte (c : ascii) : bool :=
  (32 <=? json.code c) && (json.code c <=? 126)
  && negb (Ascii.eqb c "034") && negb (Ascii.eqb c "092").

Fixpoint plain (s : string) : bool :=
  match s with
  | EmptyString => true
  | String c s' => plain_byte c && plain s'
  end.

(** ** A runtime for the examples

    A file system with one password file and one credential store, a JSON
    decoder for texts that hold one value of the shape of the data, and a
    hub that answers the login of [alice]. *)

Definition quoted (s : string) : string := dq +:+ s +:+ dq.

(** The text of a credential store with one domain. *)
Definition store_text (domain auth : string) : string :=
  "{" +:+ quoted "auths" +:+ ":{" +:+ quoted domain +:+ ":{"
      +:+ quoted "auth" +:+ ":" +:+ quoted auth +:+ "}}}".

Definition store_data (domain auth : string) : config_data :=
  mk_config_data {[ domain := mk_auth_entry auth ]}.

(** One entry of the [auths] object: an object whose member [auth], when
    it has one, is a string. *)
Definition demo_entry (v : json.value) : error + auth_entry :=
  match v with
  | json.Object _ =>
      match json.member "auth" v with
      | Some (json.Str a) => inr (mk_auth_entry a)
      | Some json.Null | None => inr (mk_auth_entry EmptyString)
      | Some _ => inl (lib_error "json: cannot unmarshal into Go value of type string")
      end
  | json.Null => inr (mk_auth_entry EmptyString)
  | _ => inl (lib_error "json: cannot unmarshal into Go value of type struct")
  end.

Fixpoint demo_domains (ms : list (string * json.value))
    (acc : gmap string auth_entry) : error + gmap string auth_entry :=
  match ms with
  | [] => inr acc
  | (domain, v) :: ms' =>
      match demo_entry v with
      | inl err => inl err
      | inr entry => demo_domains ms' (<[domain := entry]> acc)
      end
  end.

Definition demo_Decode_config (reader : io_Reader) : error + config_data :=
  match json.parse reader with
  | None => inl (lib_error "invalid character")
  | Some (json.Object ms) =>
      match json.member "auths" (json.Object ms) with
      | Some (json.Object ds) =>
          match demo_domains ds ∅ with
          | inl err => inl err
          | inr m => inr (mk_config_data m)
          end
      | Some json.Null | None => inr (mk_config_data ∅)
      | Some _ => inl (lib_error "json: cannot unmarshal into Go value of type map")
      end
  | Some _ => inl (lib_error "json: cannot unmarshal into Go value of type struct")
  end.

(** The text of a login response. *)
Definition token_text (token : string) : string :=
  "{" +:+ quoted "token" +:+ ": " +:+ quoted token +:+ "}".

Definition demo_Decode_login (reader : io_Reader) : error + login_data :=
  match json.parse reader with
  | None => inl (lib_error "invalid character")
  | Some (json.Object ms) =>
      match json.member "token" (json.Object ms) with
      | Some (json.Str token) => inr (mk_login_data token)
      | Some json.Null | None => inr (mk_login_data EmptyString)
      | Some _ => inl (lib_error "json: cannot unmarshal into Go value of type string")
      end
  | Some _ => inl (lib_error "json: cannot unmarshal into Go value of type struct")
  end.

(** The hub answers 200 and a token to the login of alice, 401 and (all
    the same) a token object to any other login, and nothing else. *)
Definition demo_Do (req : Request) : error + Response :=
  if String.eqb (URL req) "https://hub.docker.com/v2/users/login/" then
    if String.eqb (Body req) (login_body "alice" "s3cr3t")
    then inr (mkResponse 200 (token_text "t0k3n"))
    else inr (mkResponse 401 (token_text "t0k3n"))
  else inl (lib_error "dial tcp: no such host").

Definition demo_runtime : Runtime := {|
  ioutil_ReadFile path :=
    if String.eqb path "/run/secrets/password"
    then inr ("secret" +:+ String "010" EmptyString)
    else inl (lib_error "open: no such file or directory");
  util_NormalizePath path := inr "/home/alice/.docker/config.json";
  os_Open path :=
    if String.eqb path "/home/alice/.docker/config.json"
    then inr (store_text "https://index.docker.io/v1/" "YWxpY2U6czNjcjN0")
    else inl (lib_error "open: no such file or directory");
  json_Decode_config := demo_Decode_config;
  json_Decode_login := demo_Decode_login;
  url_Parse_error url := None;
  http_Do := demo_Do
|}.

(** The Registry values of the examples. *)
Definition example_registry : Registry :=
  mkRegistry "registry.example.com" EmptyString "bob" "hunter2".

Definition hub_registry : Registry :=
  mkRegistry "docker.io" EmptyString EmptyString EmptyString.

Definition alice_registry : Registry :=
  mkRegistry "docker.io" EmptyString "alice" "s3cr3t".

Definition mallory_registry : Registry :=
  mkRegistry "docker.io" EmptyString "mallory" "guess".

(** A password that holds a double quote. *)
Definition quote_registry : Registry :=
  mkRegistry "docker.io" EmptyString "u" ("p" +:+ dq +:+ "w").

(** ** Command docker_remote_repositories *)

(** The flags of the command as [flag.Parse] leaves them: the values the
    five pointers hold. *)
Record Flags : Type := mkFlags {
  registryPtr : string;
  usernamePtr : string;
  passwordPtr : string;
  passwordFilePtr : string;
  credentialsfromfilePtr : bool
}.

(** Modelled from the spec: a Repository is a repository name, a string;
    the type and its String method are declared in a file that is not at
    hand. *)
Definition Repository := string.
Definition Repository_String (r : Repository) : string := r.

(** [factory.Repositories().List(registry)]: the lister of package
    repositories is not at hand, so the listing is a parameter beside the
    runtime. *)
Class Lister : Type := {
  Repositories_List : Registry -> error + list Repository
}.

Definition newline : string := String "010" EmptyString.

(** The loop of [do] over the repositories: [fmt.Fprintf(writer, "%s\n", ...)]
    for each, in order. The writer is modelled by the text written to it. *)
Fixpoint write_repositories (writer : string) (repositories : list Repository)
  : string :=
  match repositories with
  | [] => writer
  | repository :: rest =>
      write_repositories
        (writer +:+ Repository_String repository +:+ newline) rest
  end.

Section Command.

Context {rt : Runtime} {lister : Lister}.

(** [do(writer)]: the result is the text of the writer after the call, the
    error returned, and the Registry values handed to [List], in order.
    The command names the package of registry.go [model]: its Registry,
    [RegistryPasswordFromFile], [ReadCredentialsFromDockerConfig] and
    [Validate] are those above. [fmt.Errorf] with the verb [%v] writes the
    message of the error. *)
Definition do (flags : Flags) (writer : string)
  : (string * option error) * list Registry :=
  let from_file :=
    if negb (String.length (passwordFilePtr flags) =? 0)%nat then
      match RegistryPasswordFromFile (passwordFilePtr flags) with
      | (_, Some err) => inl err
      | (password, None) => inr password
      end
    else inr (passwordPtr flags) in
  match from_file with
  | inl err => ((writer, Some err), [])
  | inr password =>
      let registry :=
        mkRegistry (registryPtr flags) EmptyString (usernamePtr flags)
                   password in
      let from_store :=
        if credentialsfromfilePtr flags then
          match ReadCredentialsFromDockerConfig registry with
          | (_, Some err) =>
              inl (lib_error ("read credentials failed: " +:+ Error err))
          | (registry', None) => inr registry'
          end
        else inr registry in
      match from_store with
      | inl err => ((writer, Some err), [])
      | inr registry =>
          match Registry_Validate registry with
          | Some err =>
              ((writer,
                Some (lib_error ("validate registry failed: " +:+ Error err))),
               [])
          | None =>
              match Repositories_List registry with
              | inl err => ((writer, Some err), [registry])
              | inr repositories =>
                  ((write_repositories writer repositories, None), [registry])
              end
          end
      end
  end.

End Command.

(** The lines of the repositories: each name and a newline. *)
Definition repository_lines (repositories : list Repository) : string :=
  String.concat EmptyString (map (fun r => r +:+ newline) repositories).

(** A runtime with three password files: one that ends with a newline,
    one that is trimmed already and one of white space only. *)
Definition files_runtime : Runtime := {|
  ioutil_ReadFile path :=
    if String.eqb path "/run/secrets/password" then inr ("secret" +:+ newline)
    else if String.eqb path "/run/secrets/trimmed" then inr "secret"
    else if String.eqb path "/run/secrets/blank" then inr (" " +:+ newline)
    else inl (lib_error "open: no such file or directory");
  util_NormalizePath := util_NormalizePath (Runtime := demo_runtime);
  os_Open := os_Open (Runtime := demo_runtime);
  json_Decode_config := demo_Decode_config;
  json_Decode_login := demo_Decode_login;
  url_Parse_error url := None;
  http_Do := demo_Do
|}.

(** A lister that knows the repositories of one registry. *)
Definition demo_lister : Lister := {|
  Repositories_List registry :=
    if String.eqb (Name registry) "registry.example.com"
    then inr ["library/alpine"; "library/busybox"]
    else inl (lib_error "request failed")
|}.

(** The flags of the examples. *)
Definition example_flags : Flags :=
  mkFlags "registry.example.com" "bob" "hunter2" EmptyString false.

Definition file_flags (password : string) : Flags :=
  mkFlags "registry.example.com" "bob" password "/run/secrets/password" false.

Definition store_flags (username password : string) : Flags :=
  mkFlags "docker.io" username password EmptyString true.

Definition blank_flags : Flags :=
  mkFlags "registry.example.com" "bob" "hunter2" "/run/secrets/blank" false.

(** * Properties *)

(** ** Strings *)

Lemma append_cons (a : ascii) (s t : string) :
  String a s +:+ t = String a (s +:+ t).
Proof. reflexivity. Qed.

Lemma append_empty_l (s : string) : EmptyString +:+ s = s.
Proof. reflexivity. Qed.

(** ** The credential model *)

Lemma IsDockerHub_true_iff (name : RegistryName) :
  RegistryName_IsDockerHub name = true <-> name = "docker.io".
Proof.
  unfold RegistryName_IsDockerHub, RegistryName_String.
  rewrite String.eqb_eq. split; congruence.
Qed.

Lemma IsDockerHub_false_iff (name : RegistryName) :
  RegistryName_IsDockerHub name = false <-> name <> "docker.io".
Proof.
  rewrite <- IsDockerHub_true_iff.
  destruct (RegistryName_IsDockerHub name); split; congruence.
Qed.

(** C7. For every registry name other than the hub sentinel [docker.io],
    [Url] is [https://] followed by the name; for the sentinel it is the
    fixed hub URL. The sentinel is recognised by exact equality of the
    strings: a name that differs in case only is no hub. *)
Theorem Url_by_cases (name : RegistryName) :
  (RegistryName_IsDockerHub name = true <-> name = "docker.io")
  /\ (name <> "docker.io" -> RegistryName_Url name = "https://" +:+ name)
  /\ RegistryName_Url "docker.io" = "https://hub.docker.com"
  /\ RegistryName_IsDockerHub "Docker.io" = false
  /\ RegistryName_Url "Docker.io" = "https://Docker.io".
Proof.
  split; [apply IsDockerHub_true_iff|].
  split; [|repeat split].
  intros Hne. unfold RegistryName_Url.
  apply IsDockerHub_false_iff in Hne. now rewrite Hne.
Qed.

Lemma Validate_is_Some (r : Registry) :
  is_Some (Registry_Validate r)
  <-> Name r = EmptyString \/ Username r = EmptyString
      \/ Password r = EmptyString.
Proof.
  unfold Registry_Validate, RegistryName_Validate, RegistryUsername_Validate,
    RegistryPassword_Validate.
  destruct r as [[|a n] t [|b u] [|c p]]; simpl;
    (split; [intros [e He]; try discriminate He; auto
            | intros H; try (eexists; reflexivity);
              destruct H as [H|[H|H]]; discriminate H]).
Qed.

(** C3. [Validate] returns an error if and only if the name, the username
    or the password is empty; it returns nil when all three are non-empty. *)
Theorem Validate_error_iff_empty (r : Registry) :
  (is_Some (Registry_Validate r)
   <-> Name r = EmptyString \/ Username r = EmptyString
       \/ Password r = EmptyString)
  /\ (Name r <> EmptyString /\ Username r <> EmptyString
      /\ Password r <> EmptyString -> Registry_Validate r = None).
Proof.
  split; [apply Validate_is_Some|].
  intros (H1 & H2 & H3).
  destruct (Registry_Validate r) as [e|] eqn:He; [|reflexivity].
  exfalso. assert (Hs : is_Some (Registry_Validate r)) by (rewrite He; eauto).
  apply Validate_is_Some in Hs. tauto.
Qed.

(** ** Splitting at the first colon *)

Ltac string_norm :=
  repeat (rewrite ?append_cons, ?append_empty_l in *).

Lemma has_colon_empty : ~ has_colon EmptyString.
Proof. intros ([|x a] & b & H); string_norm; discriminate H. Qed.

Lemma has_colon_cons (c : ascii) (s : string) :
  has_colon (String c s) <-> c = ":"%char \/ has_colon s.
Proof.
  split.
  - intros ([|x a] & b & H); string_norm.
    + left. congruence.
    + right. exists a, b. injection H as _ ->. reflexivity.
  - intros [-> | (a & b & ->)].
    + now exists EmptyString, s.
    + now exists (String c a), b.
Qed.

Lemma strip_prefix_colon (s : string) :
  strings.strip_prefix ":" s
  = match s with
    | String c s' => if Ascii.eqb ":" c then Some s' else None
    | EmptyString => None
    end.
Proof.
  destruct s as [|c s']; [reflexivity|].
  cbn [strings.strip_prefix]. now destruct (Ascii.eqb ":" c).
Qed.

(** What [cut_first] finds is the first colon. *)
Lemma cut_first_colon_spec (s : string) :
  match strings.cut_first ":" s with
  | Some (u, p) => s = u +:+ ":" +:+ p /\ ~ has_colon u
  | None => ~ has_colon s
  end.
Proof.
  induction s as [|c s IH].
  - apply has_colon_empty.
  - cbn [strings.cut_first]. rewrite strip_prefix_colon.
    destruct (Ascii.eqb ":" c) eqn:Hc.
    + apply Ascii.eqb_eq in Hc. subst c. split; [reflexivity|].
      apply has_colon_empty.
    + apply Ascii.eqb_neq in Hc.
      destruct (strings.cut_first ":" s) as [[u p]|].
      * destruct IH as [-> Hu]. split; [reflexivity|].
        rewrite has_colon_cons. intros [->|H]; [congruence | auto].
      * rewrite has_colon_cons. intros [->|H]; [congruence | auto].
Qed.

Lemma cut_first_colon_app (u p : string) :
  ~ has_colon u -> strings.cut_first ":" (u +:+ ":" +:+ p) = Some (u, p).
Proof.
  induction u as [|c u IH]; intros Hu.
  - reflexivity.
  - rewrite has_colon_cons in Hu. string_norm.
    cbn [strings.cut_first]. rewrite strip_prefix_colon.
    destruct (Ascii.eqb ":" c) eqn:Hc.
    + apply Ascii.eqb_eq in Hc. exfalso. auto.
    + rewrite IH; [reflexivity | auto].
Qed.

Lemma cut_first_colon_None (s : string) :
  ~ has_colon s -> strings.cut_first ":" s = None.
Proof.
  intros Hs. pose proof (cut_first_colon_spec s) as H.
  destruct (strings.cut_first ":" s) as [[u p]|]; [|reflexivity].
  destruct H as [-> _]. exfalso. apply Hs. now exists u, p.
Qed.

(** [SplitN(value, ":", 2)] has one element when [value] holds no colon and
    two otherwise: what stands before the first colon, and all that
    follows it. *)
Lemma SplitN_no_colon (value : string) :
  ~ has_colon value -> strings.SplitN value ":" 2 = [value].
Proof.
  intros H. unfold strings.SplitN. cbn [Z.eqb Z.ltb Z.compare].
  destruct value as [|c v]; [reflexivity|].
  change (Nat.pred (Nat.min (Z.to_nat 2) (S (String.length (String c v)))))
    with 1%nat.
  cbn [strings.genSplit_loop]. now rewrite cut_first_colon_None.
Qed.

Lemma SplitN_first_colon (u p : string) :
  ~ has_colon u -> strings.SplitN (u +:+ ":" +:+ p) ":" 2 = [u; p].
Proof.
  intros H. unfold strings.SplitN. cbn [Z.eqb Z.ltb Z.compare].
  replace (Nat.pred (Nat.min (Z.to_nat 2) (S (String.length (u +:+ ":" +:+ p)))))
    with 1%nat.
  - cbn [strings.genSplit_loop]. now rewrite cut_first_colon_app.
  - destruct u; reflexivity.
Qed.

(** ** Credential extraction from the credential store *)

Section Extraction.

Context {rt : Runtime}.

(** The steps of [CredentialsFromDockerConfig] once the stream is decoded,
    the domain found and the blob decoded: the outcome is that of the
    split. *)
Lemma extraction_after_decoding (r : Registry) (reader : io_Reader)
    (data : config_data) (auth : auth_entry) (value : string) :
  json_Decode_config reader = inr data ->
  Domain data !! nameToDomain (Name r) = Some auth ->
  base64.DecodeString (Auth auth) = (value, None) ->
  CredentialsFromDockerConfig r reader
  = match strings.SplitN value ":" 2 with
    | [part0; part1] => (mkRegistry (Name r) (Token r) part0 part1, None)
    | _ => (r, Some (errors_New "split auth failed"))
    end.
Proof.
  intros Hjson Hdomain Hb64. unfold CredentialsFromDockerConfig.
  now rewrite Hjson, Hdomain, Hb64.
Qed.

(** C5. Credential extraction splits the decoded auth blob at its first
    colon, into two parts: a blob with no colon fails with an error; in a
    blob with one, the username is what stands before the first colon and
    the password all that follows it, colons included. *)
Theorem extraction_splits_at_first_colon (r : Registry) (reader : io_Reader)
    (data : config_data) (auth : auth_entry) (value : string) :
  json_Decode_config reader = inr data ->
  Domain data !! nameToDomain (Name r) = Some auth ->
  base64.DecodeString (Auth auth) = (value, None) ->
  (~ has_colon value ->
   CredentialsFromDockerConfig r reader
   = (r, Some (errors_New "split auth failed")))
  /\ (forall u p : string,
        value = u +:+ ":" +:+ p -> ~ has_colon u ->
        strings.SplitN value ":" 2 = [u; p]
        /\ CredentialsFromDockerConfig r reader
           = (mkRegistry (Name r) (Token r) u p, None)).
Proof.
  intros Hjson Hdomain Hb64.
  rewrite (extraction_after_decoding r reader data auth value) by assumption.
  split.
  - intros Hno. now rewrite SplitN_no_colon.
  - intros u p -> Hu. now rewrite SplitN_first_colon.
Qed.

(** C6. The domain looked up in the decoded [auths] map is the legacy index
    URL for the hub sentinel and the name itself for any other name;
    extraction fails at this lookup, with the error that the domain is not
    found and with the Registry as it was, exactly when the map has no
    such key. (With the key present the call goes on to the base64
    decoding and the split, whose failures are other errors.) *)
Theorem extraction_domain_lookup (r : Registry) (reader : io_Reader)
    (data : config_data) :
  json_Decode_config reader = inr data ->
  nameToDomain "docker.io" = "https://index.docker.io/v1/"
  /\ (Name r <> "docker.io" -> nameToDomain (Name r) = Name r)
  /\ (Domain data !! nameToDomain (Name r) = None
      <-> CredentialsFromDockerConfig r reader
          = (r, Some (errors_New ("domain " +:+ Name r
                                    +:+ " not found in docker config")))).
Proof.
  intros Hjson. split; [reflexivity|]. split.
  - intros Hne. unfold nameToDomain.
    apply IsDockerHub_false_iff in Hne. now rewrite Hne.
  - unfold CredentialsFromDockerConfig. rewrite Hjson.
    destruct (Domain data !! nameToDomain (Name r)) as [auth|].
    + split; [discriminate|].
      destruct (base64.DecodeString (Auth auth)) as [value [err|]].
      * discriminate.
      * destruct (strings.SplitN value ":" 2) as [|p0 [|p1 [|p2 ps]]];
          intros H; injection H; discriminate.
    + split; reflexivity.
Qed.

Ltac frame_cases :=
  repeat split; auto;
  try discriminate;
  try (intros [? He]; discriminate He);
  try (intros _; eexists _, _; reflexivity).

(** The frame of [CredentialsFromDockerConfig]. *)
Lemma CredentialsFromDockerConfig_frame (r : Registry) (reader : io_Reader) :
  let result := CredentialsFromDockerConfig r reader in
  Name (fst result) = Name r
  /\ Token (fst result) = Token r
  /\ (is_Some (snd result) -> fst result = r)
  /\ (snd result = None ->
      exists u p, fst result = mkRegistry (Name r) (Token r) u p).
Proof.
  unfold CredentialsFromDockerConfig.
  destruct (json_Decode_config reader) as [err|data]; [cbn; frame_cases|].
  destruct (Domain data !! nameToDomain (Name r)) as [auth|];
    [|cbn; frame_cases].
  destruct (base64.DecodeString (Auth auth)) as [value [err|]];
    [cbn; frame_cases|].
  destruct (strings.SplitN value ":" 2) as [|p0 [|p1 [|p2 ps]]]; cbn;
    frame_cases.
Qed.

(** C9. Credential extraction writes to the Username and the Password only:
    the Name and the Token are the same after any call, and when the call
    returns an error (at the JSON decoding, the domain lookup, the base64
    decoding or the split) the whole Registry is as it was. *)
Theorem extraction_frame (r : Registry) (reader : io_Reader) :
  let result := CredentialsFromDockerConfig r reader in
  Name (fst result) = Name r
  /\ Token (fst result) = Token r
  /\ (is_Some (snd result) -> fst result = r)
  /\ (snd result = None ->
      exists u p, fst result = mkRegistry (Name r) (Token r) u p).
Proof. apply CredentialsFromDockerConfig_frame. Qed.

(** X4. The same frame for the store of the user: an error at the
    normalisation of the path or at the opening of the file leaves the
    Registry as it was too. *)
Theorem ReadCredentials_frame (r : Registry) :
  let result := ReadCredentialsFromDockerConfig r in
  Name (fst result) = Name r
  /\ Token (fst result) = Token r
  /\ (is_Some (snd result) -> fst result = r).
Proof.
  unfold ReadCredentialsFromDockerConfig.
  destruct (util_NormalizePath _) as [err|path]; [cbn; frame_cases|].
  destruct (os_Open path) as [err|file]; [cbn; frame_cases|].
  pose proof (CredentialsFromDockerConfig_frame r file) as H. cbn zeta in *.
  tauto.
Qed.

(** C10. A store entry whose decoded blob has a colon and an empty part,
    as [alice:] or [:s3cr3t], is extracted with success, the empty part
    becoming the username or the password; the Registry so filled fails
    [Validate]. *)
Theorem extraction_accepts_empty_part (r : Registry) (reader : io_Reader)
    (data : config_data) (auth : auth_entry) (u p : string) :
  json_Decode_config reader = inr data ->
  Domain data !! nameToDomain (Name r) = Some auth ->
  base64.DecodeString (Auth auth) = (u +:+ ":" +:+ p, None) ->
  ~ has_colon u ->
  u = EmptyString \/ p = EmptyString ->
  CredentialsFromDockerConfig r reader
  = (mkRegistry (Name r) (Token r) u p, None)
  /\ is_Some (Registry_Validate (fst (CredentialsFromDockerConfig r reader))).
Proof.
  intros Hjson Hdomain Hb64 Hu Hempty.
  rewrite (extraction_after_decoding r reader data auth _) by eassumption.
  rewrite SplitN_first_colon by assumption. split; [reflexivity|].
  apply Validate_is_Some. cbn. tauto.
Qed.

End Extraction.

Lemma no_colon_by_cut (s : string) :
  strings.cut_first ":" s = None -> ~ has_colon s.
Proof.
  intros H. pose proof (cut_first_colon_spec s) as Hs. now rewrite H in Hs.
Qed.

(** A blob that decodes to [alice:pass:word] gives the username [alice] and
    the password [pass:word]; one that decodes to [alice] is refused. *)
Lemma extraction_splits_witness :
  CredentialsFromDockerConfig (rt := demo_runtime) example_registry
    (store_text "registry.example.com" "YWxpY2U6cGFzczp3b3Jk")
  = (mkRegistry "registry.example.com" EmptyString "alice" "pass:word", None)
  /\ CredentialsFromDockerConfig (rt := demo_runtime) example_registry
       (store_text "registry.example.com" "YWxpY2U=")
     = (example_registry, Some (errors_New "split auth failed")).
Proof.
  split.
  - apply (extraction_splits_at_first_colon (rt := demo_runtime)
             example_registry
             (store_text "registry.example.com" "YWxpY2U6cGFzczp3b3Jk")
             (store_data "registry.example.com" "YWxpY2U6cGFzczp3b3Jk")
             (mk_auth_entry "YWxpY2U6cGFzczp3b3Jk") "alice:pass:word"
             eq_refl eq_refl eq_refl).
    + reflexivity.
    + apply no_colon_by_cut. reflexivity.
  - apply (extraction_splits_at_first_colon (rt := demo_runtime)
             example_registry
             (store_text "registry.example.com" "YWxpY2U=")
             (store_data "registry.example.com" "YWxpY2U=")
             (mk_auth_entry "YWxpY2U=") "alice"
             eq_refl eq_refl eq_refl).
    apply no_colon_by_cut. reflexivity.
Defined.

(** The store of the hub has no entry for [registry.example.com]. *)
Lemma extraction_domain_lookup_witness :
  CredentialsFromDockerConfig (rt := demo_runtime) example_registry
    (store_text "https://index.docker.io/v1/" "YWxpY2U6czNjcjN0")
  = (example_registry,
     Some (errors_New
             "domain registry.example.com not found in docker config")).
Proof.
  apply (extraction_domain_lookup (rt := demo_runtime) example_registry
           (store_text "https://index.docker.io/v1/" "YWxpY2U6czNjcjN0")
           (store_data "https://index.docker.io/v1/" "YWxpY2U6czNjcjN0")
           eq_refl).
  reflexivity.
Defined.

(** The hub entry [YWxpY2U6] decodes to [alice:]: the password is empty. *)
Lemma extraction_accepts_empty_part_witness :
  CredentialsFromDockerConfig (rt := demo_runtime) hub_registry
    (store_text "https://index.docker.io/v1/" "YWxpY2U6")
  = (mkRegistry "docker.io" EmptyString "alice" EmptyString, None)
  /\ is_Some (Registry_Validate
                (fst (CredentialsFromDockerConfig (rt := demo_runtime)
                        hub_registry
                        (store_text "https://index.docker.io/v1/" "YWxpY2U6")))).
Proof.
  apply (extraction_accepts_empty_part (rt := demo_runtime) hub_registry
           (store_text "https://index.docker.io/v1/" "YWxpY2U6")
           (store_data "https://index.docker.io/v1/" "YWxpY2U6")
           (mk_auth_entry "YWxpY2U6") "alice" EmptyString
           eq_refl eq_refl eq_refl).
  - apply no_colon_by_cut. reflexivity.
  - right. reflexivity.
Defined.

(** The example of the specification: the hub entry that encodes
    [alice:s3cr3t], read through the store of the user. *)
Example extraction_alice :
  ReadCredentialsFromDockerConfig (rt := demo_runtime) hub_registry
  = (mkRegistry "docker.io" EmptyString "alice" "s3cr3t", None).
Proof. reflexivity. Qed.

(** The other empty part: [OnMzY3IzdA==] decodes to [:s3cr3t]. *)
Example extraction_empty_username :
  CredentialsFromDockerConfig (rt := demo_runtime) example_registry
    (store_text "registry.example.com" "OnMzY3IzdA==")
  = (mkRegistry "registry.example.com" EmptyString EmptyString "s3cr3t", None).
Proof. reflexivity. Qed.

(** A blob that is no base64 leaves the Registry as it was. *)
Example extraction_bad_base64 :
  CredentialsFromDockerConfig (rt := demo_runtime) example_registry
    (store_text "registry.example.com" "a:b")
  = (example_registry,
     Some (errors_Wrap (CorruptInputError 1) "base64 decode auth failed")).
Proof. reflexivity. Qed.

(** ** The auth protocol *)

Lemma Header_Add_lookup (h : Header) (key value : string) :
  CanonicalMIMEHeaderKey key = key ->
  Header_Add h key value !! key = Some (default [] (h !! key) ++ [value]).
Proof.
  intros Hkey. unfold Header_Add. rewrite Hkey. apply lookup_insert_eq.
Qed.

Lemma Header_Set_lookup (h : Header) (key value : string) :
  CanonicalMIMEHeaderKey key = key ->
  Header_Set h key value !! key = Some [value].
Proof.
  intros Hkey. unfold Header_Set. rewrite Hkey. apply lookup_insert_eq.
Qed.

(** Integer division of Go truncates toward zero: the quotient by 100 is 2
    for the codes 200 to 299 and for no other. *)
Lemma status_2xx (code : Z) : Z.quot code 100 = 2 <-> 200 <= code <= 299.
Proof.
  pose proof (Z.quot_rem' code 100) as Hqr.
  destruct (Z.le_gt_cases 0 code) as [Hpos|Hneg].
  - pose proof (Z.rem_bound_pos code 100 Hpos ltac:(lia)). lia.
  - pose proof (Z.rem_bound_pos_neg code 100 ltac:(lia) ltac:(lia)). lia.
Qed.

Section AuthProtocol.

Context {rt : Runtime}.

(** [GetToken] hands one request to the HTTP client, and the rest of the
    call depends on the answer to it only. *)
Lemma GetToken_unfold (r : Registry) :
  url_Parse_error (RegistryName_Url (Name r) +:+ "/v2/users/login/") = None ->
  GetToken r
  = (match http_Do (login_request r) with
     | inl err => (EmptyString, Some (errors_Wrap err "request failed"))
     | inr resp =>
         if negb (Z.quot (StatusCode resp) 100 =? 2) then
           (EmptyString,
            Some (errors_New ("status code " +:+ fmt_d (StatusCode resp)
                                +:+ " != 2xx")))
         else
           match json_Decode_login (resp_Body resp) with
           | inl err =>
               (EmptyString, Some (errors_Wrap err "decode response failed"))
           | inr data => (login_Token data, None)
           end
     end, [login_request r]).
Proof.
  intros Hurl. unfold GetToken, http_NewRequest. rewrite Hurl.
  change (Request_Header_Add _ "Content-Type" "application/json")
    with (login_request r).
  destruct (http_Do (login_request r)) as [err|resp]; [reflexivity|].
  destruct (negb (Z.quot (StatusCode resp) 100 =? 2)); [reflexivity|].
  now destruct (json_Decode_login (resp_Body resp)).
Qed.

(** C2. Whatever the body of the response, [GetToken] returns an error and
    the empty token when the status code is outside 200..299; for a code
    within, its result is that of decoding the body. *)
Theorem GetToken_status_check (r : Registry) (resp : Response) :
  url_Parse_error (RegistryName_Url (Name r) +:+ "/v2/users/login/") = None ->
  http_Do (login_request r) = inr resp ->
  (~ (200 <= StatusCode resp <= 299) ->
   fst (GetToken r)
   = (EmptyString,
      Some (errors_New ("status code " +:+ fmt_d (StatusCode resp)
                          +:+ " != 2xx"))))
  /\ (200 <= StatusCode resp <= 299 ->
      fst (GetToken r)
      = match json_Decode_login (resp_Body resp) with
        | inl err =>
            (EmptyString, Some (errors_Wrap err "decode response failed"))
        | inr data => (login_Token data, None)
        end).
Proof.
  intros Hurl Hdo. rewrite GetToken_unfold by assumption. rewrite Hdo. cbn [fst].
  split; intros Hcode.
  - rewrite <- status_2xx in Hcode. apply Z.eqb_neq in Hcode.
    now rewrite Hcode.
  - rewrite <- status_2xx in Hcode. apply Z.eqb_eq in Hcode.
    now rewrite Hcode.
Qed.

(** C1. [SetAuth] by cases on the name of the registry. For the hub
    sentinel, whatever the username and the password, the requests sent
    are those of one [GetToken]; its token is added to the request under
    [Authorization], and its error is returned, the request being left as
    it was. For another name with a username and a password that are both
    non-empty, basic auth is set on the request. Otherwise the request is
    left as it was and nil is returned. *)
Theorem SetAuth_by_cases (r : Registry) (req : Request) :
  (RegistryName_IsDockerHub (Name r) = true ->
   snd (SetAuth r req) = snd (GetToken r)
   /\ (forall token : RegistryToken,
         fst (GetToken r) = (token, None) ->
         fst (SetAuth r req)
         = (Request_Header_Add req "Authorization" ("JWT " +:+ token), None)
         /\ Header_of (fst (fst (SetAuth r req))) !! "Authorization"
            = Some (default [] (Header_of req !! "Authorization")
                      ++ ["JWT " +:+ token]))
   /\ (forall (token : RegistryToken) (err : error),
         fst (GetToken r) = (token, Some err) ->
         fst (SetAuth r req)
         = (req, Some (errors_Wrap err "get token failed"))))
  /\ (RegistryName_IsDockerHub (Name r) = false ->
      Username r <> EmptyString -> Password r <> EmptyString ->
      SetAuth r req
      = ((SetBasicAuth req (Username r) (Password r), None), [])
      /\ Header_of (fst (fst (SetAuth r req))) !! "Authorization"
         = Some ["Basic " +:+ base64.EncodeToString
                                (Username r +:+ ":" +:+ Password r)])
  /\ (RegistryName_IsDockerHub (Name r) = false ->
      Username r = EmptyString \/ Password r = EmptyString ->
      SetAuth r req = ((req, None), [])).
Proof.
  unfold SetAuth, RegistryUsername_String, RegistryPassword_String,
    RegistryToken_String.
  split; [|split].
  - intros ->. destruct (GetToken r) as [[token [err|]] sent]; cbn [fst snd].
    + split; [reflexivity|]. split; [discriminate|].
      intros t e H. now injection H as _ ->.
    + split; [reflexivity|]. split; [|discriminate].
      intros t H. injection H as ->. split; [reflexivity|].
      now apply Header_Add_lookup.
  - intros -> Hu Hp.
    apply String.eqb_neq in Hu, Hp. rewrite Hu, Hp. cbn [negb andb fst].
    split; [reflexivity|]. now apply Header_Set_lookup.
  - intros -> [Hu|Hp].
    + rewrite Hu. reflexivity.
    + rewrite Hp. cbn [String.eqb negb andb]. now rewrite andb_false_r.
Qed.

End AuthProtocol.

(** The hub of the examples answers the login of mallory with the status
    401 and a body that holds a token: [GetToken] returns the error. *)
Lemma GetToken_status_check_witness :
  json_Decode_login (Runtime := demo_runtime)
    (resp_Body (mkResponse 401 (token_text "t0k3n")))
  = inr (mk_login_data "t0k3n")
  /\ fst (GetToken (rt := demo_runtime) mallory_registry)
     = (EmptyString, Some (errors_New "status code 401 != 2xx")).
Proof.
  split; [reflexivity|].
  apply (GetToken_status_check (rt := demo_runtime) mallory_registry
           (mkResponse 401 (token_text "t0k3n")) eq_refl eq_refl).
  cbn [StatusCode]. lia.
Defined.

Example GetToken_alice :
  GetToken (rt := demo_runtime) alice_registry
  = (("t0k3n", None), [login_request alice_registry]).
Proof. reflexivity. Qed.

Example SetAuth_hub_alice :
  SetAuth (rt := demo_runtime) alice_registry
    (mkRequest "GET" "https://hub.docker.com/v2/repositories/" ∅ EmptyString)
  = ((mkRequest "GET" "https://hub.docker.com/v2/repositories/"
        {[ "Authorization" := ["JWT t0k3n"] ]} EmptyString, None),
     [login_request alice_registry]).
Proof. reflexivity. Qed.

Example SetAuth_hub_no_credentials :
  SetAuth (rt := demo_runtime) hub_registry
    (mkRequest "GET" "https://hub.docker.com/v2/repositories/" ∅ EmptyString)
  = ((mkRequest "GET" "https://hub.docker.com/v2/repositories/" ∅ EmptyString,
      Some (errors_Wrap (errors_New "status code 401 != 2xx")
              "get token failed")),
     [login_request hub_registry]).
Proof. reflexivity. Qed.

Example SetAuth_basic :
  SetAuth (rt := demo_runtime) example_registry
    (mkRequest "GET" "https://registry.example.com/v2/_catalog" ∅ EmptyString)
  = ((mkRequest "GET" "https://registry.example.com/v2/_catalog"
        {[ "Authorization" := ["Basic Ym9iOmh1bnRlcjI="] ]} EmptyString, None),
     []).
Proof. reflexivity. Qed.

(** ** Trimming white space *)

Lemma drop_prefix_Some (p l rest : list ascii) :
  strings.drop_prefix p l = Some rest <-> l = p ++ rest.
Proof.
  revert l. induction p as [|a p IH]; intros l; cbn.
  - split; congruence.
  - destruct l as [|b l].
    + split; discriminate.
    + destruct (Ascii.eqb a b) eqn:Hab.
      * apply Ascii.eqb_eq in Hab. subst b. rewrite IH. split; congruence.
      * apply Ascii.eqb_neq in Hab. split; [discriminate | congruence].
Qed.

Lemma drop_one_Some (encs : list (list ascii)) (l rest : list ascii) :
  strings.drop_one encs l = Some rest ->
  exists e, In e encs /\ l = e ++ rest.
Proof.
  induction encs as [|e encs IH]; cbn; [discriminate|].
  destruct (strings.drop_prefix e l) as [rest'|] eqn:He.
  - intros [= ->]. apply drop_prefix_Some in He. eauto.
  - intros H. destruct (IH H) as (e' & Hin & Hl). eauto.
Qed.

Lemma drop_one_None (encs : list (list ascii)) (l : list ascii) :
  strings.drop_one encs l = None ->
  forall e rest, In e encs -> l <> e ++ rest.
Proof.
  induction encs as [|e encs IH]; cbn; [tauto|].
  destruct (strings.drop_prefix e l) as [rest'|] eqn:He; [discriminate|].
  intros H e' rest [<-|Hin] Hl.
  - apply drop_prefix_Some in Hl. congruence.
  - now apply (IH H e' rest).
Qed.

Lemma drop_one_nil (encs : list (list ascii)) :
  (forall e, In e encs -> e <> []) -> strings.drop_one encs [] = None.
Proof.
  intros Hne. destruct (strings.drop_one encs []) as [rest|] eqn:H; [|reflexivity].
  apply drop_one_Some in H. destruct H as (e & Hin & Hl).
  symmetry in Hl. apply app_eq_nil in Hl. destruct Hl as [-> _].
  now destruct (Hne [] Hin).
Qed.

(** With fuel for every byte, [drop_while] removes a run of runes among
    [encs] and stops where no such rune starts. *)
Lemma drop_while_spec (encs : list (list ascii)) :
  (forall e, In e encs -> e <> []) ->
  forall (fuel : nat) (l : list ascii),
    (length l <= fuel)%nat ->
    exists run,
      runs_of encs run
      /\ l = run ++ strings.drop_while encs fuel l
      /\ strings.drop_one encs (strings.drop_while encs fuel l) = None.
Proof.
  intros Hne. induction fuel as [|fuel IH]; intros l Hlen.
  - destruct l; [|cbn in Hlen; lia]. exists []. cbn.
    split; [now exists [] |]. split; [reflexivity | now apply drop_one_nil].
  - cbn [strings.drop_while].
    destruct (strings.drop_one encs l) as [rest|] eqn:Hone.
    + destruct (drop_one_Some _ _ _ Hone) as (e & Hin & ->).
      assert (Hrest : (length rest <= fuel)%nat).
      { rewrite length_app in Hlen. specialize (Hne e Hin).
        destruct e; [congruence | cbn in Hlen; lia]. }
      destruct (IH rest Hrest) as (run & (ws & Hws & ->) & Heq & Hstop).
      exists (e ++ concat ws). split; [|split].
      * exists (e :: ws). split; [now constructor | reflexivity].
      * rewrite <- app_assoc. now f_equal.
      * assumption.
    + exists []. split; [now exists [] |]. now split.
Qed.

(** The table of [TrimSpace] holds the UTF-8 encodings of the white-space
    code points. *)
Lemma space_encodings_utf8 :
  strings.space_encodings
  = map (fun r => list_ascii_of_string (json.utf8 r)) unicode_space_runes.
Proof. reflexivity. Qed.

Lemma space_encodings_nonempty (e : list ascii) :
  In e strings.space_encodings -> e <> [].
Proof.
  intros Hin ->. cbn in Hin.
  repeat (destruct Hin as [Hin|Hin]; [discriminate Hin|]). exact Hin.
Qed.

Lemma rev_concat (ws : list (list ascii)) :
  rev (concat ws) = concat (rev (map (@rev ascii) ws)).
Proof.
  induction ws as [|w ws IH]; [reflexivity|].
  cbn. rewrite rev_app_distr, IH, concat_app. cbn. now rewrite app_nil_r.
Qed.

Lemma runs_of_rev (encs : list (list ascii)) (l : list ascii) :
  runs_of (map (@rev ascii) encs) l -> runs_of encs (rev l).
Proof.
  intros (ws & Hws & ->). exists (rev (map (@rev ascii) ws)). split.
  - apply List.Forall_forall. intros w Hw.
    apply in_rev, in_map_iff in Hw. destruct Hw as (w' & <- & Hw').
    rewrite List.Forall_forall in Hws. apply Hws, in_map_iff in Hw'.
    destruct Hw' as (e & <- & He). now rewrite rev_involutive.
  - apply rev_concat.
Qed.

Lemma trim_left_spec (l : list ascii) :
  exists run,
    runs_of strings.space_encodings run
    /\ l = run ++ strings.trim_left l
    /\ forall w rest, In w strings.space_encodings ->
                      strings.trim_left l <> w ++ rest.
Proof.
  destruct (drop_while_spec strings.space_encodings space_encodings_nonempty
              (length l) l (le_n _)) as (run & Hrun & Heq & Hstop).
  exists run. repeat split; [assumption..|]. now apply drop_one_None.
Qed.

Lemma trim_right_spec (l : list ascii) :
  exists run,
    runs_of strings.space_encodings run
    /\ l = strings.trim_right l ++ run
    /\ forall w front, In w strings.space_encodings ->
                       strings.trim_right l <> front ++ w.
Proof.
  assert (Hne : forall e, In e (map (@rev ascii) strings.space_encodings) -> e <> []).
  { intros e He ->. apply in_map_iff in He. destruct He as (e' & He' & Hin).
    apply (space_encodings_nonempty e' Hin).
    destruct e'; [reflexivity|]. cbn in He'.
    symmetry in He'. now apply app_cons_not_nil in He'. }
  destruct (drop_while_spec _ Hne (length l) (rev l)) as (run & Hrun & Heq & Hstop).
  { now rewrite length_rev. }
  exists (rev run). unfold strings.trim_right. split; [|split].
  - now apply runs_of_rev.
  - rewrite <- rev_app_distr, <- Heq. now rewrite rev_involutive.
  - intros w front Hw Heq'. apply (f_equal (@rev ascii)) in Heq'.
    rewrite rev_involutive, rev_app_distr in Heq'.
    apply (drop_one_None _ _ Hstop (rev w) (rev front)); [|assumption].
    now apply in_map.
Qed.

Lemma string_of_list_ascii_app (a b : list ascii) :
  string_of_list_ascii (a ++ b)
  = string_of_list_ascii a +:+ string_of_list_ascii b.
Proof. induction a as [|x a IH]; [reflexivity|]. cbn. now rewrite IH. Qed.

(** [TrimSpace] removes a run of white space at each end and nothing else;
    what is left neither starts nor ends with white space. *)
Lemma TrimSpace_spec (s : string) :
  exists l t : string,
    white_space l /\ white_space t
    /\ s = l +:+ strings.TrimSpace s +:+ t
    /\ ~ starts_with_space (strings.TrimSpace s)
    /\ ~ ends_with_space (strings.TrimSpace s).
Proof.
  unfold strings.TrimSpace.
  destruct (trim_left_spec (list_ascii_of_string s))
    as (pre & Hpre & Heq & Hstart).
  destruct (trim_right_spec (strings.trim_left (list_ascii_of_string s)))
    as (post & Hpost & Heq' & Hend).
  set (m := strings.trim_left (list_ascii_of_string s)) in *.
  exists (string_of_list_ascii pre), (string_of_list_ascii post).
  unfold white_space, starts_with_space, ends_with_space.
  rewrite !list_ascii_of_string_of_list_ascii.
  split; [assumption|]. split; [assumption|]. split; [|split].
  - rewrite <- !string_of_list_ascii_app, <- Heq', <- Heq.
    now rewrite string_of_list_ascii_of_string.
  - intros (w & rest & Hw & Hm). apply (Hstart w (rest ++ post) Hw).
    rewrite Heq', Hm. now rewrite app_assoc.
  - intros (w & front & Hw & Hm). now apply (Hend w front Hw).
Qed.

Section PasswordFile.

Context {rt : Runtime}.

(** C8. For a file that can be read, [RegistryPasswordFromFile] returns its
    whole content without the white space (newlines included) at its two
    ends, every byte between being kept: the content is a run of white
    space, the password, and a run of white space, and the password
    neither starts nor ends with white space. The content [secret] and a
    newline gives the password [secret]. For a file that cannot be read it
    returns the error and the empty password. *)
Theorem RegistryPasswordFromFile_trims (path : string) :
  (forall content : string,
      ioutil_ReadFile path = inr content ->
      RegistryPasswordFromFile path = (strings.TrimSpace content, None)
      /\ exists l t : string,
          white_space l /\ white_space t
          /\ content = l +:+ strings.TrimSpace content +:+ t
          /\ ~ starts_with_space (strings.TrimSpace content)
          /\ ~ ends_with_space (strings.TrimSpace content))
  /\ (forall err : error,
        ioutil_ReadFile path = inl err ->
        RegistryPasswordFromFile path = (EmptyString, Some err))
  /\ strings.TrimSpace ("secret" +:+ String "010" EmptyString) = "secret".
Proof.
  unfold RegistryPasswordFromFile. split; [|split].
  - intros content ->. split; [reflexivity | apply TrimSpace_spec].
  - now intros err ->.
  - reflexivity.
Qed.

End PasswordFile.

Example PasswordFromFile_secret :
  RegistryPasswordFromFile (rt := demo_runtime) "/run/secrets/password"
  = ("secret", None)
  /\ RegistryPasswordFromFile (rt := demo_runtime) "/run/secrets/missing"
     = (EmptyString, Some (lib_error "open: no such file or directory")).
Proof. split; reflexivity. Qed.

(** Interior white space stays; a no-break space (U+00A0) at an end goes. *)
Example TrimSpace_interior :
  strings.TrimSpace
    (String "009" (" pass word " +:+ String "194" (String "160" (String "013" EmptyString))))
  = "pass word".
Proof. reflexivity. Qed.

(** ** The body of the login request *)

Lemma login_body_normal (u p : string) :
  login_body u p
  = String "{" (String "034" ("username" +:+ String "034" (String ":" (String " "
      (String "034" (u +:+ String "034" (String "," (String " " (String "034"
         ("password" +:+ String "034" (String ":" (String " " (String "034"
            (p +:+ String "034" (String "}" EmptyString))))))))))))))).
Proof. reflexivity. Qed.

(** A string of plain bytes is read back as it is written. *)
Lemma parse_chars_plain (s rest : string) :
  plain s = true ->
  json.parse_chars (s +:+ String "034" rest) = Some (s, rest).
Proof.
  induction s as [|c s IH]; intros Hs.
  - reflexivity.
  - cbn [plain] in Hs. apply andb_prop in Hs. destruct Hs as [Hc Hs].
    unfold plain_byte in Hc.
    repeat (apply andb_prop in Hc; destruct Hc as [Hc ?]).
    rewrite append_cons. cbn [json.parse_chars].
    destruct (Ascii.eqb c "034"); [discriminate|].
    destruct (Ascii.eqb c "092"); [discriminate|].
    replace (json.code c <? 32) with false by lia.
    now rewrite IH.
Qed.

Lemma parse_value_space (fuel : nat) (s : string) :
  json.parse_value (S fuel) (String " " s) = json.parse_value (S fuel) s.
Proof. reflexivity. Qed.

Lemma parse_value_string (fuel : nat) (s : string) :
  json.parse_value (S fuel) (String "034" s)
  = match json.parse_chars s with
    | Some (str, rest) => Some (json.Str str, rest)
    | None => None
    end.
Proof. reflexivity. Qed.

Lemma parse_value_object (fuel : nat) (s : string) :
  json.parse_value (S fuel) (String "{" (String "034" s))
  = match json.parse_members fuel (String "034" s) with
    | Some (ms, rest) => Some (json.Object ms, rest)
    | None => None
    end.
Proof. reflexivity. Qed.

Lemma parse_members_space (fuel : nat) (s : string) :
  json.parse_members (S fuel) (String " " s) = json.parse_members (S fuel) s.
Proof. reflexivity. Qed.

(** A member whose key is followed by its colon at once. *)
Lemma parse_members_key (fuel : nat) (key s rest : string) :
  json.parse_chars s = Some (key, String ":" rest) ->
  json.parse_members (S fuel) (String "034" s)
  = match json.parse_value fuel rest with
    | None => None
    | Some (v, s4) =>
        match json.skip_ws s4 with
        | String "," s5 =>
            match json.parse_members fuel s5 with
            | Some (ms, rest) => Some ((key, v) :: ms, rest)
            | None => None
            end
        | String "}" rest => Some ([(key, v)], rest)
        | _ => None
        end
    end.
Proof.
  intros H. cbn [json.parse_members].
  change (json.skip_ws (String "034" s)) with (String "034" s).
  cbv beta iota. change (Ascii.eqb "034" "034") with true. cbv beta iota.
  now rewrite H.
Qed.

Lemma parse_login_body (u p : string) (fuel : nat) :
  plain u = true -> plain p = true ->
  json.parse_value (S (S (S (S fuel)))) (login_body u p)
  = Some (json.Object [("username", json.Str u); ("password", json.Str p)],
          EmptyString).
Proof.
  intros Hu Hp. rewrite login_body_normal, parse_value_object.
  rewrite (parse_members_key _ "username" _ _
             (parse_chars_plain "username" _ eq_refl)).
  rewrite parse_value_space, parse_value_string, parse_chars_plain by assumption.
  change (json.skip_ws (String "," ?s)) with (String "," s). cbv beta iota.
  rewrite parse_members_space.
  rewrite (parse_members_key _ "password" _ _
             (parse_chars_plain "password" _ eq_refl)).
  now rewrite parse_value_space, parse_value_string, parse_chars_plain
    by assumption.
Qed.

(** X2. The body of the login request is a JSON object that carries the
    username and the password when both are made of plain bytes. *)
Theorem plain_login_body_carries (u p : string) :
  plain u = true -> plain p = true -> carries_login (login_body u p) u p.
Proof.
  intros Hu Hp.
  exists (json.Object [("username", json.Str u); ("password", json.Str p)]).
  split; [|split; reflexivity].
  unfold json.parse.
  assert (Hfuel : exists fuel,
             (2 * String.length (login_body u p) + 2 = S (S (S (S fuel))))%nat).
  { destruct (String.length (login_body u p)) as [|n] eqn:E.
    - rewrite login_body_normal in E. discriminate E.
    - exists (2 * n)%nat. lia. }
  destruct Hfuel as [fuel ->]. now rewrite parse_login_body.
Qed.

(** Two logins with one body. *)
Lemma login_body_collision :
  let tail := dq +:+ ", " +:+ quoted "password" +:+ ": " +:+ dq in
  login_body "x" ("y" +:+ tail +:+ "z") = login_body ("x" +:+ tail +:+ "y") "z".
Proof. reflexivity. Qed.

(** X3. Whatever the reading of a body, it cannot give back the username
    and the password of every Registry: two logins are written alike. *)
Theorem login_body_no_reading (read : string -> string * string) :
  exists u p : string, read (login_body u p) <> (u, p).
Proof.
  set (tail := dq +:+ ", " +:+ quoted "password" +:+ ": " +:+ dq).
  destruct (String.eqb (fst (read (login_body "x" ("y" +:+ tail +:+ "z")))) "x")
    eqn:Hx.
  - exists ("x" +:+ tail +:+ "y"), "z". intros H.
    change (login_body ("x" +:+ tail +:+ "y") "z")
      with (login_body "x" ("y" +:+ tail +:+ "z")) in H.
    rewrite H in Hx. discriminate Hx.
  - exists "x", ("y" +:+ tail +:+ "z"). intros H.
    rewrite H in Hx. discriminate Hx.
Qed.

Section LoginRequest.

Context {rt : Runtime}.

(** The request [GetToken] sends: a POST to the login path under the URL of
    the registry, of content type JSON, with the body written from the
    username and the password. *)
Lemma GetToken_sends (r : Registry) :
  url_Parse_error (RegistryName_Url (Name r) +:+ "/v2/users/login/") = None ->
  snd (GetToken r) = [login_request r].
Proof. intros Hurl. now rewrite GetToken_unfold. Qed.

(** X1. The request of [GetToken] field by field: the method, the URL under
    that of the registry (the hub URL for the sentinel), the content type
    and the body. *)
Theorem GetToken_request_shape (r : Registry) :
  url_Parse_error (RegistryName_Url (Name r) +:+ "/v2/users/login/") = None ->
  exists req : Request,
    snd (GetToken r) = [req]
    /\ Method req = "POST"
    /\ URL req = RegistryName_Url (Name r) +:+ "/v2/users/login/"
    /\ (Name r = "docker.io" ->
        URL req = "https://hub.docker.com/v2/users/login/")
    /\ Header_of req = {[ "Content-Type" := ["application/json"] ]}
    /\ Body req = login_body (Username r) (Password r).
Proof.
  intros Hurl. exists (login_request r). rewrite GetToken_sends by assumption.
  repeat split. intros Hname. cbn [URL login_request]. now rewrite Hname.
Qed.

(** C4, at a password that holds a double quote. The request sent for the
    hub Registry whose username is the letter u and whose password is the
    three bytes p, double quote, w is a POST to the login URL of the hub
    with the content type JSON. Its body writes the quote of the password
    as it is: the text is no JSON text, and so it carries no password. *)
Theorem GetToken_body_of_quoted_password :
  url_Parse_error "https://hub.docker.com/v2/users/login/" = None ->
  let body :=
    "{" +:+ quoted "username" +:+ ": " +:+ quoted "u" +:+ ", "
        +:+ quoted "password" +:+ ": " +:+ dq +:+ "p" +:+ dq +:+ "w" +:+ dq
        +:+ "}" in
  snd (GetToken quote_registry)
  = [mkRequest "POST" "https://hub.docker.com/v2/users/login/"
       {[ "Content-Type" := ["application/json"] ]} body]
  /\ json.parse body = None
  /\ ~ carries_login body (Username quote_registry) (Password quote_registry).
Proof.
  intros Hurl body. split; [|split].
  - now rewrite GetToken_sends.
  - reflexivity.
  - intros (v & Hv & _). discriminate Hv.
Qed.

End LoginRequest.

Lemma GetToken_body_of_quoted_password_witness :
  snd (GetToken (rt := demo_runtime) quote_registry)
  = [mkRequest "POST" "https://hub.docker.com/v2/users/login/"
       {[ "Content-Type" := ["application/json"] ]}
       (login_body "u" ("p" +:+ dq +:+ "w"))]
  /\ json.parse (login_body "u" ("p" +:+ dq +:+ "w")) = None
  /\ ~ carries_login (login_body "u" ("p" +:+ dq +:+ "w"))
         (Username quote_registry) (Password quote_registry).
Proof.
  exact (GetToken_body_of_quoted_password (rt := demo_runtime) eq_refl).
Defined.

Lemma GetToken_request_shape_witness :
  exists req : Request,
    snd (GetToken (rt := demo_runtime) alice_registry) = [req]
    /\ Method req = "POST"
    /\ URL req = RegistryName_Url (Name alice_registry) +:+ "/v2/users/login/"
    /\ (Name alice_registry = "docker.io" ->
        URL req = "https://hub.docker.com/v2/users/login/")
    /\ Header_of req = {[ "Content-Type" := ["application/json"] ]}
    /\ Body req = login_body (Username alice_registry) (Password alice_registry).
Proof.
  exact (GetToken_request_shape (rt := demo_runtime) alice_registry eq_refl).
Defined.

Lemma plain_login_body_carries_witness :
  carries_login (login_body "alice" "s3cr3t") "alice" "s3cr3t".
Proof.
  exact (plain_login_body_carries "alice" "s3cr3t" eq_refl eq_refl).
Defined.

(** With plain bytes the body is read back: the login of alice. *)
Example login_body_alice :
  json.parse (login_body "alice" "s3cr3t")
  = Some (json.Object [("username", json.Str "alice");
                       ("password", json.Str "s3cr3t")]).
Proof. reflexivity. Qed.

(** * More of the code *)

(** ** The standard encoding: encode, then decode *)

Lemma land_shifted_low (hi lo k : Z) :
  0 <= k -> 0 <= lo < 2 ^ k -> Z.land (hi * 2 ^ k) lo = 0.
Proof.
  intros Hk Hlo. apply Z.bits_inj'. intros n Hn.
  rewrite Z.land_spec, Z.bits_0. destruct (Z.lt_ge_cases n k) as [Hlt|Hge].
  - now rewrite Z.mul_pow2_bits_low.
  - destruct (Z.eq_dec lo 0) as [->|Hne].
    + now rewrite Z.bits_0, andb_false_r.
    + rewrite (Z.bits_above_log2 lo n), andb_false_r; [reflexivity|lia|].
      assert (Z.log2 lo < k) by (apply Z.log2_lt_pow2; lia). lia.
Qed.

Lemma lor_shifted_low (hi lo k : Z) :
  0 <= k -> 0 <= lo < 2 ^ k -> Z.lor (hi * 2 ^ k) lo = hi * 2 ^ k + lo.
Proof.
  intros Hk Hlo. pose proof (land_shifted_low hi lo k Hk Hlo) as Hland.
  rewrite <- Z.lxor_lor by exact Hland. symmetry.
  now apply Z.add_nocarry_lxor.
Qed.

Lemma byte_to_Z_range (c : ascii) : 0 <= base64.byte_to_Z c < 256.
Proof.
  unfold base64.byte_to_Z. pose proof (N_ascii_bounded c). lia.
Qed.

Lemma Z_to_byte_to_Z (c : ascii) : base64.Z_to_byte (base64.byte_to_Z c) = c.
Proof.
  unfold base64.Z_to_byte. change 255 with (Z.ones 8).
  rewrite Z.land_ones by lia. rewrite Z.mod_small by apply byte_to_Z_range.
  unfold base64.byte_to_Z. rewrite N2Z.id. apply ascii_N_embedding.
Qed.

Lemma land_63_range (v : Z) : 0 <= Z.land v 63 < 64.
Proof.
  change 63 with (Z.ones 6). rewrite Z.land_ones by lia.
  apply Z.mod_pos_bound. lia.
Qed.

Lemma decodeMap_nth (n : nat) :
  (n < 64)%nat ->
  base64.decodeMap (nth n base64.encodeStd base64.padChar) = Z.of_nat n.
Proof.
  intros Hn. do 64 (destruct n as [|n]; [reflexivity|]). lia.
Qed.

Lemma decodeMap_encode_sextet (v : Z) :
  base64.decodeMap (base64.encode_sextet v) = Z.land v 63.
Proof.
  unfold base64.encode_sextet. pose proof (land_63_range v).
  rewrite decodeMap_nth by lia. lia.
Qed.

(** One step of [Decode] on a character of the alphabet. *)
Lemma Decode_sextet (v : Z) (src : list ascii) (si j : Z) (dbuf : list Z) :
  base64.Decode (base64.encode_sextet v :: src) si j dbuf
  = if j =? 3 then
      let '(rest, err) := base64.Decode src (si + 1) 0 [] in
      (base64.quantum_bytes (dbuf ++ [Z.land v 63]) 4 ++ rest, err)
    else base64.Decode src (si + 1) (j + 1) (dbuf ++ [Z.land v 63]).
Proof.
  cbn [base64.Decode]. rewrite decodeMap_encode_sextet.
  pose proof (land_63_range v).
  replace (Z.land v 63 =? 255) with false by lia. reflexivity.
Qed.

Lemma sextets_join (a b c d : Z) :
  0 <= a < 64 -> 0 <= b < 64 -> 0 <= c < 64 -> 0 <= d < 64 ->
  Z.lor (Z.lor (Z.lor (Z.shiftl a 18) (Z.shiftl b 12)) (Z.shiftl c 6)) d
  = a * 2 ^ 18 + b * 2 ^ 12 + c * 2 ^ 6 + d.
Proof.
  intros Ha Hb Hc Hd. rewrite !Z.shiftl_mul_pow2 by lia.
  rewrite (lor_shifted_low a (b * 2 ^ 12) 18) by lia.
  replace (a * 2 ^ 18 + b * 2 ^ 12) with ((a * 2 ^ 6 + b) * 2 ^ 12) by lia.
  rewrite (lor_shifted_low _ (c * 2 ^ 6) 12) by lia.
  replace ((a * 2 ^ 6 + b) * 2 ^ 12 + c * 2 ^ 6)
    with (((a * 2 ^ 6 + b) * 2 ^ 6 + c) * 2 ^ 6) by lia.
  rewrite (lor_shifted_low _ d 6) by lia. lia.
Qed.

Lemma bytes_join (x y z : Z) :
  0 <= x < 256 -> 0 <= y < 256 -> 0 <= z < 256 ->
  Z.lor (Z.lor (Z.shiftl x 16) (Z.shiftl y 8)) z = x * 2 ^ 16 + y * 2 ^ 8 + z.
Proof.
  intros Hx Hy Hz. rewrite !Z.shiftl_mul_pow2 by lia.
  rewrite (lor_shifted_low x (y * 2 ^ 8) 16) by lia.
  replace (x * 2 ^ 16 + y * 2 ^ 8) with ((x * 2 ^ 8 + y) * 2 ^ 8) by lia.
  rewrite (lor_shifted_low _ z 8) by lia. lia.
Qed.

(** The four 6-bit values of a 24-bit value, put together again. *)
Lemma quantum_of_sextets (val : Z) :
  0 <= val < 2 ^ 24 ->
  Z.lor (Z.lor (Z.lor (Z.shiftl (Z.land (Z.shiftr val 18) 63) 18)
                      (Z.shiftl (Z.land (Z.shiftr val 12) 63) 12))
               (Z.shiftl (Z.land (Z.shiftr val 6) 63) 6))
        (Z.land val 63)
  = val.
Proof.
  intros Hval.
  rewrite sextets_join by apply land_63_range.
  change 63 with (Z.ones 6). rewrite !Z.land_ones, !Z.shiftr_div_pow2 by lia.
  change (2 ^ 18) with 262144. change (2 ^ 12) with 4096.
  change (2 ^ 6) with 64. change (2 ^ 24) with 16777216 in Hval.
  Z.div_mod_to_equations. lia.
Qed.


Lemma Z_to_byte_mod (v : Z) :
  base64.Z_to_byte v = ascii_of_N (Z.to_N (v mod 256)).
Proof.
  unfold base64.Z_to_byte. change 255 with (Z.ones 8).
  now rewrite Z.land_ones by lia.
Qed.

Lemma Z_to_byte_eq (v : Z) (b : ascii) :
  v mod 256 = base64.byte_to_Z b -> base64.Z_to_byte v = b.
Proof.
  intros H. rewrite Z_to_byte_mod, H. unfold base64.byte_to_Z.
  rewrite N2Z.id. apply ascii_N_embedding.
Qed.

(** The bytes of a quantum are the three bytes it was made of. *)
Lemma quantum_bytes_of_val (b0 b1 b2 : ascii) :
  let val := base64.byte_to_Z b0 * 2 ^ 16 + base64.byte_to_Z b1 * 2 ^ 8
             + base64.byte_to_Z b2 in
  [base64.Z_to_byte (Z.shiftr val 16); base64.Z_to_byte (Z.shiftr val 8);
   base64.Z_to_byte val] = [b0; b1; b2].
Proof.
  intros val. subst val.
  pose proof (byte_to_Z_range b0). pose proof (byte_to_Z_range b1).
  pose proof (byte_to_Z_range b2).
  rewrite !Z.shiftr_div_pow2 by lia.
  change (2 ^ 16) with 65536. change (2 ^ 8) with 256.
  f_equal; [|f_equal; [|f_equal]]; apply Z_to_byte_eq;
    Z.div_mod_to_equations; lia.
Qed.

Lemma Decode_sextets2 (a b : Z) (src : list ascii) (si : Z) :
  base64.Decode (base64.encode_sextet a :: base64.encode_sextet b :: src)
    si 0 []
  = base64.Decode src (si + 1 + 1) 2 [Z.land a 63; Z.land b 63].
Proof. now rewrite !Decode_sextet. Qed.

Lemma Decode_sextets3 (a b c : Z) (src : list ascii) (si : Z) :
  base64.Decode (base64.encode_sextet a :: base64.encode_sextet b
                   :: base64.encode_sextet c :: src) si 0 []
  = base64.Decode src (si + 1 + 1 + 1) 3
      [Z.land a 63; Z.land b 63; Z.land c 63].
Proof. now rewrite Decode_sextets2, Decode_sextet. Qed.

Lemma Decode_sextets4 (a b c d : Z) (src : list ascii) (si : Z) :
  base64.Decode (base64.encode_sextet a :: base64.encode_sextet b
                   :: base64.encode_sextet c :: base64.encode_sextet d :: src)
    si 0 []
  = let '(rest, err) := base64.Decode src (si + 1 + 1 + 1 + 1) 0 [] in
    (base64.quantum_bytes
       [Z.land a 63; Z.land b 63; Z.land c 63; Z.land d 63] 4 ++ rest, err).
Proof. now rewrite Decode_sextets3, Decode_sextet. Qed.

Lemma Decode_padding2 (si : Z) (dbuf : list Z) :
  base64.Decode [base64.padChar; base64.padChar] si 2 dbuf
  = (base64.quantum_bytes dbuf 2, None).
Proof. reflexivity. Qed.

Lemma Decode_padding1 (si : Z) (dbuf : list Z) :
  base64.Decode [base64.padChar] si 3 dbuf
  = (base64.quantum_bytes dbuf 3, None).
Proof. reflexivity. Qed.

(** The bytes of a quantum whose 6-bit values are those of [val]. *)
Lemma quantum_bytes_sextets (val dlen a b c d : Z) :
  0 <= val < 2 ^ 24 ->
  a = Z.land (Z.shiftr val 18) 63 -> b = Z.land (Z.shiftr val 12) 63 ->
  c = Z.land (Z.shiftr val 6) 63 -> d = Z.land val 63 ->
  base64.quantum_bytes [a; b; c; d] dlen
  = firstn (Z.to_nat (dlen - 1))
      [base64.Z_to_byte (Z.shiftr val 16); base64.Z_to_byte (Z.shiftr val 8);
       base64.Z_to_byte val].
Proof.
  intros Hval -> -> -> ->. unfold base64.quantum_bytes. cbn [nth].
  now rewrite quantum_of_sextets.
Qed.

Ltac pow2_consts :=
  change (2 ^ 24) with 16777216 in *; change (2 ^ 18) with 262144 in *;
  change (2 ^ 16) with 65536 in *; change (2 ^ 12) with 4096 in *;
  change (2 ^ 8) with 256 in *; change (2 ^ 6) with 64 in *.

Ltac bits_to_arith :=
  change 63 with (Z.ones 6);
  rewrite ?Z.land_ones, ?Z.shiftr_div_pow2 by lia;
  pow2_consts; Z.div_mod_to_equations; lia.

Lemma Encode_quantum1 (b0 : ascii) :
  let val := Z.shiftl (base64.byte_to_Z b0) 16 in
  base64.quantum_bytes
    [Z.land (Z.shiftr val 18) 63; Z.land (Z.shiftr val 12) 63] 2 = [b0].
Proof.
  intros val. pose proof (byte_to_Z_range b0) as H0.
  assert (Hval : val = base64.byte_to_Z b0 * 2 ^ 16).
  { subst val. now rewrite Z.shiftl_mul_pow2 by lia. }
  clearbody val. subst val.
  change (base64.quantum_bytes [?a; ?b] 2)
    with (base64.quantum_bytes [a; b; 0; 0] 2).
  rewrite (quantum_bytes_sextets (base64.byte_to_Z b0 * 2 ^ 16));
    try reflexivity; try (symmetry; bits_to_arith); [|pow2_consts; lia].
  change (Z.to_nat (2 - 1)) with 1%nat. cbn [firstn].
  f_equal. apply Z_to_byte_eq. rewrite Z.shiftr_div_pow2 by lia.
  pow2_consts. Z.div_mod_to_equations. lia.
Qed.

Lemma Encode_quantum2 (b0 b1 : ascii) :
  let val := Z.lor (Z.shiftl (base64.byte_to_Z b0) 16)
                   (Z.shiftl (base64.byte_to_Z b1) 8) in
  base64.quantum_bytes
    [Z.land (Z.shiftr val 18) 63; Z.land (Z.shiftr val 12) 63;
     Z.land (Z.shiftr val 6) 63] 3 = [b0; b1].
Proof.
  intros val. pose proof (byte_to_Z_range b0) as H0.
  pose proof (byte_to_Z_range b1) as H1.
  assert (Hval : val = base64.byte_to_Z b0 * 2 ^ 16 + base64.byte_to_Z b1 * 2 ^ 8).
  { subst val. rewrite !Z.shiftl_mul_pow2 by lia.
    apply lor_shifted_low; pow2_consts; lia. }
  clearbody val. subst val.
  change (base64.quantum_bytes [?a; ?b; ?c] 3)
    with (base64.quantum_bytes [a; b; c; 0] 3).
  rewrite (quantum_bytes_sextets
             (base64.byte_to_Z b0 * 2 ^ 16 + base64.byte_to_Z b1 * 2 ^ 8));
    try reflexivity; try (symmetry; bits_to_arith); [|pow2_consts; lia].
  change (Z.to_nat (3 - 1)) with 2%nat. cbn [firstn].
  f_equal; [|f_equal]; apply Z_to_byte_eq; rewrite Z.shiftr_div_pow2 by lia;
    pow2_consts; Z.div_mod_to_equations; lia.
Qed.

Lemma Encode_quantum3 (b0 b1 b2 : ascii) :
  let val := Z.lor (Z.lor (Z.shiftl (base64.byte_to_Z b0) 16)
                          (Z.shiftl (base64.byte_to_Z b1) 8))
                   (base64.byte_to_Z b2) in
  base64.quantum_bytes
    [Z.land (Z.shiftr val 18) 63; Z.land (Z.shiftr val 12) 63;
     Z.land (Z.shiftr val 6) 63; Z.land val 63] 4 = [b0; b1; b2].
Proof.
  intros val. pose proof (byte_to_Z_range b0) as H0.
  pose proof (byte_to_Z_range b1) as H1. pose proof (byte_to_Z_range b2) as H2.
  assert (Hval : val = base64.byte_to_Z b0 * 2 ^ 16 + base64.byte_to_Z b1 * 2 ^ 8
                       + base64.byte_to_Z b2).
  { subst val. now apply bytes_join. }
  clearbody val. subst val.
  rewrite (quantum_bytes_sextets
             (base64.byte_to_Z b0 * 2 ^ 16 + base64.byte_to_Z b1 * 2 ^ 8
              + base64.byte_to_Z b2) 4);
    try reflexivity; [|pow2_consts; lia].
  apply quantum_bytes_of_val.
Qed.

Lemma Decode_Encode_aux (n : nat) :
  forall (src : list ascii) (si : Z),
    (length src <= n)%nat ->
    base64.Decode (base64.Encode src) si 0 [] = (src, None).
Proof.
  induction n as [|n IH]; intros src si Hlen.
  - destruct src; [reflexivity | cbn in Hlen; lia].
  - destruct src as [|b0 [|b1 [|b2 src]]].
    + reflexivity.
    + cbn [base64.Encode]. rewrite Decode_sextets2, Decode_padding2.
      now rewrite Encode_quantum1.
    + cbn [base64.Encode]. rewrite Decode_sextets3, Decode_padding1.
      now rewrite Encode_quantum2.
    + cbn [base64.Encode]. rewrite Decode_sextets4, IH by (cbn in Hlen; lia).
      now rewrite Encode_quantum3.
Qed.

(** What [EncodeToString] writes, [DecodeString] reads back. *)
Lemma DecodeString_EncodeToString (s : string) :
  base64.DecodeString (base64.EncodeToString s) = (s, None).
Proof.
  unfold base64.DecodeString, base64.EncodeToString.
  rewrite list_ascii_of_string_of_list_ascii.
  rewrite (Decode_Encode_aux _ _ _ (le_n _)).
  now rewrite string_of_list_ascii_of_string.
Qed.

(** ** More on the credential model *)

(** X5. The error of [Validate] names the first empty field in the order
    name, username, password. *)
Theorem Validate_first_empty (r : Registry) :
  (Name r = EmptyString ->
   Registry_Validate r = Some (errors_New "registry empty"))
  /\ (Name r <> EmptyString -> Username r = EmptyString ->
      Registry_Validate r = Some (errors_New "username empty"))
  /\ (Name r <> EmptyString -> Username r <> EmptyString ->
      Password r = EmptyString ->
      Registry_Validate r = Some (errors_New "password empty")).
Proof.
  unfold Registry_Validate, RegistryName_Validate, RegistryUsername_Validate,
    RegistryPassword_Validate.
  destruct r as [[|a n] t [|b u] [|c p]]; cbn; repeat split; congruence.
Qed.

(** ** More on credential extraction *)

Section ExtractionSameName.

Context {rt : Runtime}.

(** Extraction reads the Name of the Registry only. *)
Lemma extraction_same_name (r1 r2 : Registry) (reader : io_Reader) :
  Name r1 = Name r2 ->
  snd (CredentialsFromDockerConfig r1 reader)
  = snd (CredentialsFromDockerConfig r2 reader)
  /\ (snd (CredentialsFromDockerConfig r1 reader) = None ->
      Username (fst (CredentialsFromDockerConfig r1 reader))
      = Username (fst (CredentialsFromDockerConfig r2 reader))
      /\ Password (fst (CredentialsFromDockerConfig r1 reader))
         = Password (fst (CredentialsFromDockerConfig r2 reader))).
Proof.
  intros Hname. unfold CredentialsFromDockerConfig. rewrite <- Hname.
  unfold RegistryName_String.
  destruct (json_Decode_config reader) as [err|data]; [now split|].
  destruct (Domain data !! nameToDomain (Name r1)) as [auth|];
    [|split; [reflexivity | discriminate]].
  destruct (base64.DecodeString (Auth auth)) as [value [err|]];
    [split; [reflexivity | discriminate]|].
  destruct (strings.SplitN value ":" 2) as [|p0 [|p1 [|p2 ps]]];
    split; try reflexivity; try discriminate. now split.
Qed.

Lemma registry_eq (r1 r2 : Registry) :
  Name r1 = Name r2 -> Token r1 = Token r2 -> Username r1 = Username r2 ->
  Password r1 = Password r2 -> r1 = r2.
Proof. destruct r1, r2. cbn. now intros -> -> -> ->. Qed.

(** The store of the user read for two Registry values of one Name and one
    Token: the same error, and on success the same Registry. *)
Lemma ReadCredentials_same_name (r1 r2 : Registry) :
  Name r1 = Name r2 -> Token r1 = Token r2 ->
  snd (ReadCredentialsFromDockerConfig r1)
  = snd (ReadCredentialsFromDockerConfig r2)
  /\ (snd (ReadCredentialsFromDockerConfig r1) = None ->
      fst (ReadCredentialsFromDockerConfig r1)
      = fst (ReadCredentialsFromDockerConfig r2)).
Proof.
  intros Hname Htoken. unfold ReadCredentialsFromDockerConfig.
  destruct (util_NormalizePath _) as [err|path];
    [split; [reflexivity | discriminate]|].
  destruct (os_Open path) as [err|file];
    [split; [reflexivity | discriminate]|].
  destruct (extraction_same_name r1 r2 file Hname) as [Herr Hok].
  split; [assumption|]. intros Hnone. destruct (Hok Hnone) as [Hu Hp].
  pose proof (CredentialsFromDockerConfig_frame r1 file) as (Hn1 & Ht1 & _).
  pose proof (CredentialsFromDockerConfig_frame r2 file) as (Hn2 & Ht2 & _).
  apply registry_eq; congruence.
Qed.

Lemma ReadCredentials_name_token (r : Registry) :
  Name (fst (ReadCredentialsFromDockerConfig r)) = Name r
  /\ Token (fst (ReadCredentialsFromDockerConfig r)) = Token r.
Proof.
  unfold ReadCredentialsFromDockerConfig.
  destruct (util_NormalizePath _) as [err|path]; [now split|].
  destruct (os_Open path) as [err|file]; [now split|].
  pose proof (CredentialsFromDockerConfig_frame r file) as (Hn & Ht & _).
  now split.
Qed.

End ExtractionSameName.

Section ExtractionMore.

Context {rt : Runtime}.

(** X6. What a successful extraction returns is what the entry of the
    domain encodes: the stream decodes, the map has the domain, its blob
    decodes to the username, a colon and the password, and the username
    holds no colon. *)
Theorem extraction_success_sound (r r' : Registry) (reader : io_Reader) :
  CredentialsFromDockerConfig r reader = (r', None) ->
  exists (data : config_data) (auth : auth_entry),
    json_Decode_config reader = inr data
    /\ Domain data !! nameToDomain (Name r) = Some auth
    /\ base64.DecodeString (Auth auth)
       = (Username r' +:+ ":" +:+ Password r', None)
    /\ ~ has_colon (Username r')
    /\ Name r' = Name r /\ Token r' = Token r.
Proof.
  unfold CredentialsFromDockerConfig.
  destruct (json_Decode_config reader) as [err|data]; [discriminate|].
  destruct (Domain data !! nameToDomain (Name r)) as [auth|] eqn:Hdom;
    [|discriminate].
  destruct (base64.DecodeString (Auth auth)) as [value [err|]] eqn:Hb64;
    [discriminate|].
  destruct (strings.SplitN value ":" 2) as [|p0 [|p1 [|p2 ps]]] eqn:Hsplit;
    try discriminate.
  intros [= <-]. exists data, auth. cbn [Username Password Name Token].
  assert (Hcut : strings.cut_first ":" value = Some (p0, p1)).
  { unfold strings.SplitN in Hsplit. cbn [Z.eqb Z.ltb Z.compare] in Hsplit.
    destruct value as [|c v]; [discriminate Hsplit|].
    change (Nat.pred (Nat.min (Z.to_nat 2) (S (String.length (String c v)))))
      with 1%nat in Hsplit.
    cbn [strings.genSplit_loop] in Hsplit.
    destruct (strings.cut_first ":" (String c v)) as [[u p]|];
      [|discriminate Hsplit].
    now injection Hsplit as -> ->. }
  pose proof (cut_first_colon_spec value) as Hspec. rewrite Hcut in Hspec.
  destruct Hspec as [-> Hno]. repeat split; auto.
Qed.

(** X7. Extraction reads the Name of the Registry and nothing else of it:
    two Registry values of one Name get the same error, and on success the
    same username and password, whatever they held before. *)
Theorem extraction_ignores_credentials (r1 r2 : Registry) (reader : io_Reader) :
  Name r1 = Name r2 ->
  snd (CredentialsFromDockerConfig r1 reader)
  = snd (CredentialsFromDockerConfig r2 reader)
  /\ (snd (CredentialsFromDockerConfig r1 reader) = None ->
      Username (fst (CredentialsFromDockerConfig r1 reader))
      = Username (fst (CredentialsFromDockerConfig r2 reader))
      /\ Password (fst (CredentialsFromDockerConfig r1 reader))
         = Password (fst (CredentialsFromDockerConfig r2 reader))).
Proof. apply extraction_same_name. Qed.

(** X8. Round trip with basic auth: an entry whose blob is the basic-auth
    encoding of a username without colon and a password is extracted as
    that username and that password. *)
Theorem extraction_of_basicAuth (r : Registry) (reader : io_Reader)
    (data : config_data) (u p : string) :
  json_Decode_config reader = inr data ->
  Domain data !! nameToDomain (Name r) = Some (mk_auth_entry (basicAuth u p)) ->
  ~ has_colon u ->
  CredentialsFromDockerConfig r reader
  = (mkRegistry (Name r) (Token r) u p, None).
Proof.
  intros Hjson Hdomain Hu.
  rewrite (extraction_after_decoding r reader data _ (u +:+ ":" +:+ p))
    by (try eassumption; apply DecodeString_EncodeToString).
  now rewrite SplitN_first_colon.
Qed.

End ExtractionMore.

Lemma extraction_success_sound_witness :
  exists (data : config_data) (auth : auth_entry),
    json_Decode_config (Runtime := demo_runtime)
      (store_text "https://index.docker.io/v1/" "YWxpY2U6czNjcjN0") = inr data
    /\ Domain data !! nameToDomain (Name hub_registry) = Some auth
    /\ base64.DecodeString (Auth auth) = ("alice" +:+ ":" +:+ "s3cr3t", None)
    /\ ~ has_colon "alice"
    /\ "docker.io" = Name hub_registry /\ EmptyString = Token hub_registry.
Proof.
  exact (extraction_success_sound (rt := demo_runtime) hub_registry
           (mkRegistry "docker.io" EmptyString "alice" "s3cr3t")
           (store_text "https://index.docker.io/v1/" "YWxpY2U6czNjcjN0")
           eq_refl).
Defined.

Lemma extraction_ignores_credentials_witness :
  snd (CredentialsFromDockerConfig (rt := demo_runtime) hub_registry
         (store_text "https://index.docker.io/v1/" "YWxpY2U6czNjcjN0"))
  = snd (CredentialsFromDockerConfig (rt := demo_runtime) alice_registry
           (store_text "https://index.docker.io/v1/" "YWxpY2U6czNjcjN0")).
Proof.
  exact (proj1 (extraction_ignores_credentials (rt := demo_runtime)
                  hub_registry alice_registry
                  (store_text "https://index.docker.io/v1/" "YWxpY2U6czNjcjN0")
                  eq_refl)).
Defined.

Lemma extraction_of_basicAuth_witness :
  CredentialsFromDockerConfig (rt := demo_runtime) example_registry
    (store_text "registry.example.com" (basicAuth "bob" "hunter2"))
  = (mkRegistry "registry.example.com" EmptyString "bob" "hunter2", None).
Proof.
  apply (extraction_of_basicAuth (rt := demo_runtime) example_registry
           (store_text "registry.example.com" (basicAuth "bob" "hunter2"))
           (store_data "registry.example.com" (basicAuth "bob" "hunter2"))
           "bob" "hunter2" eq_refl eq_refl).
  apply no_colon_by_cut. reflexivity.
Defined.

(** ** More on the auth protocol *)

Lemma Header_Add_other (h : Header) (key value other : string) :
  other <> CanonicalMIMEHeaderKey key ->
  Header_Add h key value !! other = h !! other.
Proof. intros Hne. unfold Header_Add. now rewrite lookup_insert_ne. Qed.

Lemma Header_Set_other (h : Header) (key value other : string) :
  other <> CanonicalMIMEHeaderKey key ->
  Header_Set h key value !! other = h !! other.
Proof. intros Hne. unfold Header_Set. now rewrite lookup_insert_ne. Qed.

Section AuthProtocolMore.

Context {rt : Runtime}.

(** X9. [GetToken] returns a token only with a nil error: with an error
    the token is empty. It hands at most one request to the HTTP client,
    the login request, and none exactly when the login URL does not
    parse. *)
Theorem GetToken_outcomes (r : Registry) :
  (is_Some (snd (fst (GetToken r))) -> fst (fst (GetToken r)) = EmptyString)
  /\ (snd (GetToken r) = [] \/ snd (GetToken r) = [login_request r])
  /\ (snd (GetToken r) = []
      <-> is_Some (url_Parse_error
                     (RegistryName_Url (Name r) +:+ "/v2/users/login/"))).
Proof.
  destruct (url_Parse_error (RegistryName_Url (Name r) +:+ "/v2/users/login/"))
    as [err|] eqn:Hurl.
  - unfold GetToken, http_NewRequest. rewrite Hurl. cbn.
    repeat split; eauto.
  - rewrite GetToken_unfold by assumption. cbn [fst snd].
    split; [|split; [now right | split; [discriminate | intros [e He]; discriminate He]]].
    destruct (http_Do (login_request r)) as [err|resp]; [reflexivity|].
    destruct (negb (Z.quot (StatusCode resp) 100 =? 2)); [reflexivity|].
    destruct (json_Decode_login (resp_Body resp)) as [err|data];
      [reflexivity|]. intros [e He]. discriminate He.
Qed.

(** X10. The frame of [SetAuth]: the method, the URL and the body of the
    request stay, and so does every header but [Authorization]; with an
    error the whole request stays. For a registry other than the hub no
    request is sent and no error returned. *)
Theorem SetAuth_frame (r : Registry) (req : Request) :
  let req' := fst (fst (SetAuth r req)) in
  Method req' = Method req /\ URL req' = URL req /\ Body req' = Body req
  /\ (forall key : string,
        key <> "Authorization" ->
        Header_of req' !! key = Header_of req !! key)
  /\ (is_Some (snd (fst (SetAuth r req))) -> req' = req)
  /\ (RegistryName_IsDockerHub (Name r) = false ->
      snd (fst (SetAuth r req)) = None /\ snd (SetAuth r req) = []).
Proof.
  unfold SetAuth.
  destruct (RegistryName_IsDockerHub (Name r)).
  - destruct (GetToken r) as [[token [err|]] sent]; cbn;
      repeat split; auto; try discriminate;
      try (intros [e He]; discriminate He).
    intros key Hkey. now apply Header_Add_other.
  - destruct (negb _ && negb _); cbn; repeat split; auto;
      try (intros [e He]; discriminate He).
    intros key Hkey. now apply Header_Set_other.
Qed.


End AuthProtocolMore.

(** ** More on trimming *)

(** No white-space encoding starts another: after one of them, [drop_one]
    gives what follows it. *)
Lemma drop_one_space (w rest : list ascii) :
  In w strings.space_encodings ->
  strings.drop_one strings.space_encodings (w ++ rest) = Some rest.
Proof.
  intros Hin. cbn in Hin.
  repeat (destruct Hin as [<-|Hin]; [reflexivity|]). destruct Hin.
Qed.

Lemma drop_while_runs (fuel : nat) :
  forall l : list ascii,
    runs_of strings.space_encodings l -> (length l <= fuel)%nat ->
    strings.drop_while strings.space_encodings fuel l = [].
Proof.
  induction fuel as [|fuel IH]; intros l (ws & Hws & ->) Hlen.
  - destruct (concat ws); [reflexivity | cbn in Hlen; lia].
  - destruct Hws as [|w ws Hw Hws]; cbn [concat strings.drop_while].
    + now rewrite drop_one_nil by apply space_encodings_nonempty.
    + rewrite drop_one_space by assumption. apply IH; [now exists ws|].
      cbn [concat] in Hlen. rewrite length_app in Hlen.
      pose proof (space_encodings_nonempty w Hw).
      destruct w; [congruence | cbn in Hlen; lia].
Qed.

Lemma runs_of_app (encs : list (list ascii)) (a b : list ascii) :
  runs_of encs a -> runs_of encs b -> runs_of encs (a ++ b).
Proof.
  intros (wa & Ha & ->) (wb & Hb & ->). exists (wa ++ wb). split.
  - now apply Forall_app.
  - now rewrite concat_app.
Qed.

Lemma list_ascii_of_string_app (a b : string) :
  list_ascii_of_string (a +:+ b)
  = list_ascii_of_string a ++ list_ascii_of_string b.
Proof. induction a as [|c a IH]; [reflexivity|]. cbn. now rewrite <- IH. Qed.

Lemma TrimSpace_empty_iff (s : string) :
  strings.TrimSpace s = EmptyString <-> white_space s.
Proof.
  split.
  - intros Hempty. destruct (TrimSpace_spec s) as (l & t & Hl & Ht & Hs & _).
    rewrite Hempty in Hs. rewrite Hs. unfold white_space.
    rewrite !list_ascii_of_string_app. cbn [list_ascii_of_string app].
    now apply runs_of_app.
  - intros Hs. unfold strings.TrimSpace, strings.trim_left.
    now rewrite drop_while_runs.
Qed.

Lemma drop_while_stop (encs : list (list ascii)) (fuel : nat) (l : list ascii) :
  strings.drop_one encs l = None -> strings.drop_while encs fuel l = l.
Proof. intros H. destruct fuel; [reflexivity|]. cbn. now rewrite H. Qed.

Lemma drop_one_None_iff (encs : list (list ascii)) (l : list ascii) :
  strings.drop_one encs l = None
  <-> forall e rest, In e encs -> l <> e ++ rest.
Proof.
  split; [apply drop_one_None|]. intros H.
  destruct (strings.drop_one encs l) as [rest|] eqn:Hone; [|reflexivity].
  destruct (drop_one_Some _ _ _ Hone) as (e & Hin & Hl).
  now destruct (H e rest Hin).
Qed.

(** A string with no white space at its ends is left as it is. *)
Lemma TrimSpace_fixed (t : string) :
  ~ starts_with_space t -> ~ ends_with_space t -> strings.TrimSpace t = t.
Proof.
  unfold starts_with_space, ends_with_space. intros Hstart Hend.
  unfold strings.TrimSpace, strings.trim_left, strings.trim_right.
  rewrite (drop_while_stop _ _ (list_ascii_of_string t)).
  - rewrite drop_while_stop.
    + now rewrite rev_involutive, string_of_list_ascii_of_string.
    + apply drop_one_None_iff. intros e rest He Heq.
      apply in_map_iff in He. destruct He as (w & <- & Hw).
      apply Hend. exists w, (rev rest). split; [assumption|].
      apply (f_equal (@rev ascii)) in Heq.
      now rewrite rev_involutive, rev_app_distr, rev_involutive in Heq.
  - apply drop_one_None_iff. intros e rest He Heq. apply Hstart. eauto.
Qed.

(** Trimming what is trimmed changes nothing. *)
Lemma TrimSpace_idempotent (s : string) :
  strings.TrimSpace (strings.TrimSpace s) = strings.TrimSpace s.
Proof.
  destruct (TrimSpace_spec s) as (l & t & Hl & Ht & Hs & Hstart & Hend).
  now apply TrimSpace_fixed.
Qed.

Section PasswordFileMore.

Context {rt : Runtime}.

(** X12. The password read from a file is empty exactly when the file holds
    white space only (or nothing); such a password makes [Validate] fail. *)
Theorem password_file_of_white_space (path content : string) :
  ioutil_ReadFile path = inr content ->
  (fst (RegistryPasswordFromFile path) = EmptyString <-> white_space content)
  /\ (white_space content ->
      forall name token username,
        is_Some (Registry_Validate
                   (mkRegistry name token username
                      (fst (RegistryPasswordFromFile path))))).
Proof.
  intros Hread. unfold RegistryPasswordFromFile. rewrite Hread. cbn [fst].
  split; [apply TrimSpace_empty_iff|].
  intros Hws name token username.
  apply TrimSpace_empty_iff in Hws. rewrite Hws.
  apply Validate_is_Some. cbn. tauto.
Qed.

(** X13. A password read from a file and written back to a file is read
    as the same password: trimming is idempotent. *)
Theorem password_file_stable (path path' content : string) :
  ioutil_ReadFile path = inr content ->
  ioutil_ReadFile path' = inr (fst (RegistryPasswordFromFile path)) ->
  RegistryPasswordFromFile path' = RegistryPasswordFromFile path.
Proof.
  intros Hread Hread'. unfold RegistryPasswordFromFile in *.
  rewrite Hread in *. cbn [fst] in Hread'. rewrite Hread'.
  now rewrite TrimSpace_idempotent.
Qed.

End PasswordFileMore.

(** ** The command *)

Lemma append_assoc (a b c : string) : (a +:+ b) +:+ c = a +:+ b +:+ c.
Proof.
  induction a as [|x a IH]; [reflexivity|]. now rewrite !append_cons, IH.
Qed.

Lemma append_empty_r (a : string) : a +:+ EmptyString = a.
Proof.
  induction a as [|x a IH]; [reflexivity|]. now rewrite append_cons, IH.
Qed.

Lemma concat_empty_cons (x : string) (xs : list string) :
  String.concat EmptyString (x :: xs) = x +:+ String.concat EmptyString xs.
Proof. destruct xs; [cbn; now rewrite append_empty_r | reflexivity]. Qed.

Lemma write_repositories_lines (repositories : list Repository) :
  forall writer : string,
    write_repositories writer repositories
    = writer +:+ repository_lines repositories.
Proof.
  unfold repository_lines.
  induction repositories as [|r rs IH]; intros writer.
  - cbn. now rewrite append_empty_r.
  - cbn [write_repositories map]. rewrite IH, concat_empty_cons.
    unfold Repository_String. now rewrite !append_assoc.
Qed.


Section CommandProperties.

Context {rt : Runtime} {lister : Lister}.

(** X14. [do] writes nothing unless it returns nil: with an error the writer
    is as it was. When it returns nil it has listed one Registry, which
    passes [Validate], and has written the repositories of that listing,
    one to a line and in order, after what the writer held. *)
Theorem do_output (flags : Flags) (writer : string) :
  let result := do flags writer in
  (is_Some (snd (fst result)) -> fst (fst result) = writer)
  /\ (snd (fst result) = None ->
      exists (registry : Registry) (repositories : list Repository),
        snd result = [registry]
        /\ Registry_Validate registry = None
        /\ Repositories_List registry = inr repositories
        /\ fst (fst result) = writer +:+ repository_lines repositories).
Proof.
  unfold do.
  destruct (if negb _ then _ else _) as [err|password];
    [cbn; split; [reflexivity | discriminate]|].
  destruct (if credentialsfromfilePtr flags then _ else _) as [err|registry];
    [cbn; split; [reflexivity | discriminate]|].
  destruct (Registry_Validate registry) as [err|] eqn:Hvalid;
    [cbn; split; [reflexivity | discriminate]|].
  destruct (Repositories_List registry) as [err|repositories] eqn:Hlist;
    cbn; (split; [|try discriminate]).
  - reflexivity.
  - intros [e He]. discriminate He.
  - intros _. exists registry, repositories.
    now rewrite write_repositories_lines.
Qed.

(** X15. [do] lists at most once, and never a Registry that fails
    [Validate]: the Registry handed to [List] passes it, bears the name of
    the registry flag and an empty token. *)
Theorem do_lists_a_valid_registry (flags : Flags) (writer : string)
    (registry : Registry) :
  In registry (snd (do flags writer)) ->
  snd (do flags writer) = [registry]
  /\ Registry_Validate registry = None
  /\ Name registry = registryPtr flags
  /\ Token registry = EmptyString.
Proof.
  unfold do.
  destruct (if negb _ then _ else _) as [err|password]; [intros []|].
  destruct (if credentialsfromfilePtr flags then _ else _)
    as [err|registry0] eqn:Hstore; [intros []|].
  assert (Hframe : Name registry0 = registryPtr flags
                   /\ Token registry0 = EmptyString).
  { destruct (credentialsfromfilePtr flags).
    - pose proof (ReadCredentials_name_token
                    (mkRegistry (registryPtr flags) EmptyString
                       (usernamePtr flags) password)) as [Hn Ht].
      destruct (ReadCredentialsFromDockerConfig _) as [r' [err|]];
        [discriminate Hstore|]. now injection Hstore as <-.
    - now injection Hstore as <-. }
  destruct (Registry_Validate registry0) as [err|] eqn:Hvalid; [intros []|].
  destruct (Repositories_List registry0) as [err|repositories];
    cbn [snd In]; intros [<-|[]]; tauto.
Qed.

(** X16. The password file goes before the password flag: with a password
    file named, the value of the password flag changes nothing. *)
Theorem do_password_file_precedence (flags1 flags2 : Flags) (writer : string) :
  registryPtr flags1 = registryPtr flags2 ->
  usernamePtr flags1 = usernamePtr flags2 ->
  passwordFilePtr flags1 = passwordFilePtr flags2 ->
  credentialsfromfilePtr flags1 = credentialsfromfilePtr flags2 ->
  passwordFilePtr flags1 <> EmptyString ->
  do flags1 writer = do flags2 writer.
Proof.
  intros Hr Hu Hf Hc Hfile. unfold do. rewrite <- Hr, <- Hu, <- Hf, <- Hc.
  destruct (passwordFilePtr flags1) as [|c path]; [congruence|].
  reflexivity.
Qed.

(** X17. The credential store goes before the flags: when the credentials
    are read from the store, the values of the username flag and of the
    password flag change nothing. *)
Theorem do_store_precedence (flags1 flags2 : Flags) (writer : string) :
  registryPtr flags1 = registryPtr flags2 ->
  passwordFilePtr flags1 = passwordFilePtr flags2 ->
  credentialsfromfilePtr flags1 = true ->
  credentialsfromfilePtr flags2 = true ->
  do flags1 writer = do flags2 writer.
Proof.
  intros Hr Hf Hc1 Hc2. unfold do. rewrite Hc1, Hc2, <- Hr, <- Hf.
  assert (Hread : forall u1 p1 u2 p2,
             (match ReadCredentialsFromDockerConfig
                      (mkRegistry (registryPtr flags1) EmptyString u1 p1) with
              | (_, Some err) =>
                  inl (lib_error ("read credentials failed: " +:+ Error err))
              | (registry', None) => inr registry'
              end : error + Registry)
             = match ReadCredentialsFromDockerConfig
                       (mkRegistry (registryPtr flags1) EmptyString u2 p2) with
               | (_, Some err) =>
                   inl (lib_error ("read credentials failed: " +:+ Error err))
               | (registry', None) => inr registry'
               end).
  { intros u1 p1 u2 p2.
    destruct (ReadCredentials_same_name
                (mkRegistry (registryPtr flags1) EmptyString u1 p1)
                (mkRegistry (registryPtr flags1) EmptyString u2 p2)
                eq_refl eq_refl) as [Herr Hok].
    destruct (ReadCredentialsFromDockerConfig
                (mkRegistry (registryPtr flags1) EmptyString u1 p1))
      as [ra [ea|]];
      destruct (ReadCredentialsFromDockerConfig
                  (mkRegistry (registryPtr flags1) EmptyString u2 p2))
      as [rb [eb|]]; cbn [fst snd] in *; try discriminate Herr.
    - now injection Herr as ->.
    - now rewrite Hok. }
  destruct (negb (String.length (passwordFilePtr flags1) =? 0)%nat).
  - destruct (RegistryPasswordFromFile (passwordFilePtr flags1))
      as [password [err|]]; [reflexivity|].
    now rewrite (Hread (usernamePtr flags1) password (usernamePtr flags2) password).
  - now rewrite (Hread (usernamePtr flags1) (passwordPtr flags1)
                   (usernamePtr flags2) (passwordPtr flags2)).
Qed.

(** X18. A password file of white space only: with a name and a username
    given and no credential store, [do] fails at the validation, for the
    empty password, lists nothing and writes nothing. *)
Theorem do_white_space_password_file (flags : Flags) (writer content : string) :
  passwordFilePtr flags <> EmptyString ->
  ioutil_ReadFile (passwordFilePtr flags) = inr content ->
  white_space content ->
  credentialsfromfilePtr flags = false ->
  registryPtr flags <> EmptyString ->
  usernamePtr flags <> EmptyString ->
  do flags writer
  = ((writer,
      Some (lib_error "validate registry failed: password empty")), []).
Proof.
  intros Hfile Hread Hws Hstore Hname Huser. unfold do.
  destruct (passwordFilePtr flags) as [|c path] eqn:Hpath; [congruence|].
  cbn [String.length Nat.eqb negb]. unfold RegistryPasswordFromFile.
  rewrite Hread, Hstore. apply TrimSpace_empty_iff in Hws. rewrite Hws.
  unfold Registry_Validate, RegistryName_Validate, RegistryUsername_Validate,
    RegistryPassword_Validate. cbn [Name Username Password].
  destruct (registryPtr flags); [congruence|].
  destruct (usernamePtr flags); [congruence|]. reflexivity.
Qed.

End CommandProperties.

Lemma password_file_of_white_space_witness :
  (fst (RegistryPasswordFromFile (rt := files_runtime) "/run/secrets/blank")
   = EmptyString <-> white_space (" " +:+ newline))
  /\ (white_space (" " +:+ newline) ->
      forall name token username,
        is_Some (Registry_Validate
                   (mkRegistry name token username
                      (fst (RegistryPasswordFromFile (rt := files_runtime)
                              "/run/secrets/blank"))))).
Proof.
  exact (password_file_of_white_space (rt := files_runtime)
           "/run/secrets/blank" (" " +:+ newline) eq_refl).
Defined.

Lemma password_file_stable_witness :
  RegistryPasswordFromFile (rt := files_runtime) "/run/secrets/trimmed"
  = RegistryPasswordFromFile (rt := files_runtime) "/run/secrets/password".
Proof.
  exact (password_file_stable (rt := files_runtime) "/run/secrets/password"
           "/run/secrets/trimmed" ("secret" +:+ newline) eq_refl eq_refl).
Defined.

Lemma do_lists_a_valid_registry_witness :
  snd (do (rt := demo_runtime) (lister := demo_lister) example_flags EmptyString)
  = [example_registry]
  /\ Registry_Validate example_registry = None
  /\ Name example_registry = registryPtr example_flags
  /\ Token example_registry = EmptyString.
Proof.
  apply (do_lists_a_valid_registry (rt := demo_runtime) (lister := demo_lister)
           example_flags EmptyString example_registry).
  left. reflexivity.
Defined.

Lemma do_password_file_precedence_witness :
  do (rt := files_runtime) (lister := demo_lister) (file_flags "hunter2")
     EmptyString
  = do (rt := files_runtime) (lister := demo_lister) (file_flags "other")
       EmptyString.
Proof.
  apply (do_password_file_precedence (rt := files_runtime)
           (lister := demo_lister) (file_flags "hunter2") (file_flags "other")
           EmptyString eq_refl eq_refl eq_refl eq_refl).
  discriminate.
Defined.

Lemma do_store_precedence_witness :
  do (rt := demo_runtime) (lister := demo_lister) (store_flags "bob" "hunter2")
     EmptyString
  = do (rt := demo_runtime) (lister := demo_lister)
       (store_flags EmptyString EmptyString) EmptyString.
Proof.
  exact (do_store_precedence (rt := demo_runtime) (lister := demo_lister)
           (store_flags "bob" "hunter2") (store_flags EmptyString EmptyString)
           EmptyString eq_refl eq_refl eq_refl eq_refl).
Defined.

Lemma do_white_space_password_file_witness :
  do (rt := files_runtime) (lister := demo_lister) blank_flags "out"
  = (("out", Some (lib_error "validate registry failed: password empty")), []).
Proof.
  apply (do_white_space_password_file (rt := files_runtime)
           (lister := demo_lister) blank_flags "out" (" " +:+ newline)).
  - discriminate.
  - reflexivity.
  - apply TrimSpace_empty_iff. reflexivity.
  - reflexivity.
  - discriminate.
  - discriminate.
Defined.

(** A run of the command: the repositories of the registry, one to a line. *)
Example do_example :
  do (rt := demo_runtime) (lister := demo_lister) example_flags EmptyString
  = (("library/alpine" +:+ newline +:+ "library/busybox" +:+ newline, None),
     [example_registry]).
Proof. reflexivity. Qed.

(** A run with the credentials of the store of the user: the hub is listed
    as alice, and the lister of the examples does not know the hub. *)
Example do_store_example :
  do (rt := demo_runtime) (lister := demo_lister) (store_flags "bob" "hunter2")
     EmptyString
  = ((EmptyString, Some (lib_error "request failed")), [alice_registry]).
Proof. reflexivity. Qed.

(** No registry named: the validation fails and nothing is listed. *)
Example do_no_registry :
  do (rt := demo_runtime) (lister := demo_lister)
     (mkFlags EmptyString "bob" "hunter2" EmptyString false) EmptyString
  = ((EmptyString,
      Some (lib_error "validate registry failed: registry empty")), []).
Proof. reflexivity. Qed.

(** ** Names that meet the hub *)

(** X19. The name [hub.docker.com] is the one name that gets the URL of the
    hub without being the hub sentinel: its requests go to the hub, and
    [SetAuth] treats it as a private registry, with no token login. *)
Theorem hub_url_without_hub_auth (name : RegistryName) :
  (RegistryName_Url name = "https://hub.docker.com"
   /\ RegistryName_IsDockerHub name = false)
  <-> name = "hub.docker.com".
Proof.
  unfold RegistryName_Url, RegistryName_String. split.
  - intros [Hurl Hhub]. rewrite Hhub in Hurl. now injection Hurl.
  - intros ->. now split.
Qed.

Section MoreComposition.

Context {rt : Runtime} {lister : Lister}.

(** X20. The basic-auth value [SetAuth] writes for a private registry is
    read back by the decoder of the standard encoding as the username, a
    colon and the password. *)
Theorem SetAuth_basic_decodes (r : Registry) (req : Request) :
  RegistryName_IsDockerHub (Name r) = false ->
  Username r <> EmptyString -> Password r <> EmptyString ->
  exists blob : string,
    Header_of (fst (fst (SetAuth r req))) !! "Authorization"
    = Some ["Basic " +:+ blob]
    /\ base64.DecodeString blob = (Username r +:+ ":" +:+ Password r, None).
Proof.
  intros Hhub Hu Hp. exists (basicAuth (Username r) (Password r)).
  split; [|apply DecodeString_EncodeToString].
  unfold SetAuth, RegistryUsername_String, RegistryPassword_String.
  rewrite Hhub. apply String.eqb_neq in Hu, Hp. rewrite Hu, Hp.
  cbn [negb andb fst]. now apply Header_Set_lookup.
Qed.

(** X21. With the credentials asked from the store and no entry for the
    domain of the registry, [do] fails before the validation, with the
    message of the extraction after its own, lists nothing and writes
    nothing. *)
Theorem do_store_domain_missing (flags : Flags) (writer path : string)
    (file : io_Reader) (data : config_data) :
  passwordFilePtr flags = EmptyString ->
  credentialsfromfilePtr flags = true ->
  util_NormalizePath "~/.docker/config.json" = inr path ->
  os_Open path = inr file ->
  json_Decode_config file = inr data ->
  Domain data !! nameToDomain (registryPtr flags) = None ->
  do flags writer
  = ((writer,
      Some (lib_error ("read credentials failed: domain " +:+ registryPtr flags
                         +:+ " not found in docker config"))), []).
Proof.
  intros Hfile Hstore Hnorm Hopen Hjson Hdomain. unfold do.
  rewrite Hfile, Hstore. cbn [String.length Nat.eqb negb].
  unfold ReadCredentialsFromDockerConfig, CredentialsFromDockerConfig.
  rewrite Hnorm, Hopen, Hjson. cbn [Name]. now rewrite Hdomain.
Qed.

End MoreComposition.

Lemma hub_url_without_hub_auth_example :
  RegistryName_Url "hub.docker.com" = RegistryName_Url "docker.io".
Proof. reflexivity. Qed.

Lemma SetAuth_basic_decodes_witness :
  exists blob : string,
    Header_of (fst (fst (SetAuth (rt := demo_runtime) example_registry
                           (mkRequest "GET" "https://registry.example.com/v2/_catalog"
                              ∅ EmptyString))))
      !! "Authorization" = Some ["Basic " +:+ blob]
    /\ base64.DecodeString blob = ("bob" +:+ ":" +:+ "hunter2", None).
Proof.
  apply (SetAuth_basic_decodes (rt := demo_runtime) example_registry
           (mkRequest "GET" "https://registry.example.com/v2/_catalog"
              ∅ EmptyString) eq_refl); discriminate.
Defined.

Lemma do_store_domain_missing_witness :
  do (rt := demo_runtime) (lister := demo_lister)
     (mkFlags "registry.example.com" "bob" "hunter2" EmptyString true) "out"
  = (("out",
      Some (lib_error
              "read credentials failed: domain registry.example.com not found in docker config")),
     []).
Proof.
  exact (do_store_domain_missing (rt := demo_runtime) (lister := demo_lister)
           (mkFlags "registry.example.com" "bob" "hunter2" EmptyString true)
           "out" "/home/alice/.docker/config.json"
           (store_text "https://index.docker.io/v1/" "YWxpY2U6czNjcjN0")
           (store_data "https://index.docker.io/v1/" "YWxpY2U6czNjcjN0")
           eq_refl eq_refl eq_refl eq_refl eq_refl eq_refl).
Defined.
